(** * AutoDPD: a shallow embedding of [src/autodepend/autodpd.py]

    The class [autodpd] walks a project directory, extracts the top-level
    imports and the syntax features of every [.py] script and [.ipynb]
    notebook, classifies the imports and derives a Python version.

    Modelling choices.
    - Python's standard services the code calls ([ast.parse], [json.loads],
      [sys.stdlib_module_names], [importlib.util.find_spec],
      [importlib.metadata.distributions], [hasattr(ast, 'Match')]) are the
      fields of a record [PyEnv]; every theorem is stated for all of them.
    - Text is a [string] holding the UTF-8 bytes of a Python [str]; byte
      order on UTF-8 is code-point order, the order of Python's [sorted].
    - A [float] literal of the source ([3.5] ... [3.10]) is kept as its value
      in hundredths, a [Z]: the doubles nearest to these decimals are ordered
      as the decimals are, and [3.10] and [3.1] are the same double.
    - A Python [set] is a duplicate-free list; only its contents matter to the
      code (it is summed into other sets, maxed, or sorted).
    - Effects: the printed warnings and raised exceptions are threaded through
      a small state-and-exception monad [M]; [main] and
      [save_conda_environment], which also write files, run in [IO], whose
      state adds the files written ([open] and [yaml.safe_dump] are
      parameters). *)

From Stdlib Require Import String Ascii List ZArith Bool Lia Sorted Permutation.
Import ListNotations.
Open Scope string_scope.
Open Scope Z_scope.
Open Scope list_scope.
Set Warnings "-register-all".

(** ** Python exceptions the code raises or catches *)

Inductive exc :=
| SyntaxError          (** with its subclass IndentationError *)
| JSONDecodeError
| KeyError
| TypeError
| UnicodeDecodeError
| OSError              (** with IsADirectoryError, PermissionError, ... *)
| AttributeError
| OtherException.

Definition exc_eqb (a b : exc) : bool :=
  match a, b with
  | SyntaxError, SyntaxError | JSONDecodeError, JSONDecodeError
  | KeyError, KeyError | TypeError, TypeError
  | UnicodeDecodeError, UnicodeDecodeError | OSError, OSError
  | AttributeError, AttributeError | OtherException, OtherException => true
  | _, _ => false
  end.

(** ** The state-and-exception monad: stdout lines and a raised exception *)

Inductive result (A : Type) :=
| Ok (a : A)
| Raise (e : exc).
Arguments Ok {A} a.
Arguments Raise {A} e.

Definition M (A : Type) := list string -> result A * list string.

Definition ret {A} (a : A) : M A := fun out => (Ok a, out).
Definition raise {A} (e : exc) : M A := fun out => (Raise e, out).
Definition bind {A B} (m : M A) (f : A -> M B) : M B :=
  fun out =>
    match m out with
    | (Ok a, out') => f a out'
    | (Raise e, out') => (Raise e, out')
    end.
Definition print (line : string) : M unit := fun out => (Ok tt, out ++ [line]).

(** [try: body except (caught...): handler] *)
Definition try_except {A} (body : M A) (caught : list exc) (handler : M A) : M A :=
  fun out =>
    match body out with
    | (Raise e, out') =>
        if existsb (exc_eqb e) caught then handler out' else (Raise e, out')
    | r => r
    end.

(** Lifts a plain fallible value. *)
Definition lift {A} (r : result A) : M A :=
  match r with Ok a => ret a | Raise e => raise e end.

Notation "x <- c1 ;; c2" := (bind c1 (fun x => c2))
  (at level 61, c1 at next level, right associativity).
Notation "c1 ;; c2" := (bind c1 (fun _ => c2))
  (at level 61, right associativity).

(** ** Small string helpers (Python [str] methods) *)

(** [s.split('.')[0]]: the text before the first dot. *)
Fixpoint first_component (s : string) : string :=
  match s with
  | EmptyString => EmptyString
  | String c rest => if Ascii.eqb c "." then EmptyString
                     else String c (first_component rest)
  end.

(** [s.lower()] on ASCII letters. *)
Definition lower_char (c : ascii) : ascii :=
  let n := nat_of_ascii c in
  if (Nat.leb 65 n && Nat.leb n 90)%bool then ascii_of_nat (n + 32) else c.

Fixpoint lower (s : string) : string :=
  match s with
  | EmptyString => EmptyString
  | String c rest => String (lower_char c) (lower rest)
  end.

(** [needle in hay] for strings. *)
Fixpoint str_contains (needle hay : string) : bool :=
  String.prefix needle hay ||
  match hay with
  | EmptyString => false
  | String _ rest => str_contains needle rest
  end.

(** [set.add] on a duplicate-free list. *)
Definition set_add {A} (eqb : A -> A -> bool) (x : A) (s : list A) : list A :=
  if existsb (eqb x) s then s else s ++ [x].

Definition set_update {A} (eqb : A -> A -> bool) (s t : list A) : list A :=
  fold_left (fun acc x => set_add eqb x acc) t s.

(** [sorted(...)] of a list of strings: insertion sort on byte order. *)
Fixpoint insert_sorted (x : string) (l : list string) : list string :=
  match l with
  | [] => [x]
  | y :: ys => if String.leb x y then x :: y :: ys else y :: insert_sorted x ys
  end.

Fixpoint sorted (l : list string) : list string :=
  match l with
  | [] => []
  | x :: xs => insert_sorted x (sorted xs)
  end.

(** ** Float literals and their [repr] *)

(** The value, in hundredths, of the literal [i.frac] (frac at most two
    digits): [float_lit 3 "10" = float_lit 3 "1" = 310]. *)
Definition digit_val (c : ascii) : Z := Z.of_nat (nat_of_ascii c) - 48.

Definition float_lit (i : Z) (frac : string) : Z :=
  match frac with
  | EmptyString => 100 * i
  | String d EmptyString => 100 * i + 10 * digit_val d
  | String d1 (String d2 _) => 100 * i + 10 * digit_val d1 + digit_val d2
  end.

Definition digit_char (d : Z) : ascii := ascii_of_nat (Z.to_nat (d + 48)).

(** [str(f)] for a non-negative value below 1000 in hundredths: the shortest
    decimal, at least one fractional digit. *)
Definition float_repr (h : Z) : string :=
  let i := h / 100 in
  let f := h mod 100 in
  let int_part :=
    if i <? 10 then String (digit_char i) EmptyString
    else String (digit_char (i / 10)) (String (digit_char (i mod 10)) EmptyString) in
  let frac_part :=
    if f mod 10 =? 0 then String (digit_char (f / 10)) EmptyString
    else String (digit_char (f / 10)) (String (digit_char (f mod 10)) EmptyString) in
  (int_part ++ "." ++ frac_part)%string.

(** ** The syntax tree: the node kinds the code inspects

    A node the analyses never test (contexts, operators, aliases, the
    module itself, statements and expressions of other kinds) is [Other]
    with its children. *)

Inductive binop := BitOr | OtherOp.

Inductive node :=
| Import (names : list string)              (** alias.name of each alias *)
| ImportFrom (module : option string)       (** None for [from . import x] *)
| AnnAssign (children : list node)
| JoinedStr (values : list node)
| ClassDef (body : list node) (decorator_list : list node)
| NamedExpr (target value : node)
| BinOp (left : node) (op : binop) (right : node)
| Dict (children : list node)
| Match (children : list node)
| Name (id : string)
| Other (children : list node).

(** [ast.walk]: every node of the tree (the source's order is breadth
    first; the analyses only add to sets, so the order is immaterial). *)
Fixpoint walk (n : node) : list node :=
  n :: match n with
       | Import _ | ImportFrom _ | Name _ => []
       | AnnAssign cs | JoinedStr cs | Dict cs | Match cs | Other cs =>
           flat_map walk cs
       | ClassDef body decs => flat_map walk body ++ flat_map walk decs
       | NamedExpr t v => walk t ++ walk v
       | BinOp l _ r => walk l ++ walk r
       end.

(** The import loop body (autodpd.py lines 28-33 and 78-83). *)
Definition node_imports (n : node) (imports : list string) : list string :=
  match n with
  | Import names =>
      fold_left (fun acc name => set_add String.eqb (first_component name) acc)
                names imports
  | ImportFrom (Some m) =>
      if String.eqb m "" then imports
      else set_add String.eqb (first_component m) imports
  | _ => imports
  end.

Definition tree_imports (tree : node) : list string :=
  fold_left (fun acc n => node_imports n acc) (walk tree) [].

(** The version-detection loop body (lines 194-220 and 117-132);
    [has_match] is [hasattr(ast, 'Match')]. *)
Definition is_dict (n : node) : bool :=
  match n with Dict _ => true | _ => false end.

Definition node_versions (has_match : bool) (n : node) (vs : list Z) : list Z :=
  let vs := match n with AnnAssign _ => set_add Z.eqb (float_lit 3 "5") vs | _ => vs end in
  let vs := match n with JoinedStr _ => set_add Z.eqb (float_lit 3 "6") vs | _ => vs end in
  let vs := match n with
            | ClassDef _ decs =>
                fold_left (fun acc d =>
                             match d with
                             | Name id => if String.eqb id "dataclass"
                                          then set_add Z.eqb (float_lit 3 "7") acc
                                          else acc
                             | _ => acc
                             end) decs vs
            | _ => vs
            end in
  let vs := match n with NamedExpr _ _ => set_add Z.eqb (float_lit 3 "8") vs | _ => vs end in
  let vs := match n with
            | BinOp l BitOr r =>
                if is_dict l || is_dict r then set_add Z.eqb (float_lit 3 "9") vs else vs
            | _ => vs
            end in
  let vs := match n with
            | Match _ => if has_match then set_add Z.eqb (float_lit 3 "10") vs else vs
            | _ => vs
            end in
  vs.

Definition tree_versions (has_match : bool) (tree : node) : list Z :=
  fold_left (fun acc n => node_versions has_match n acc) (walk tree) [].

(** ** JSON values as [json.loads] returns them *)

Inductive json :=
| JNull
| JBool (b : bool)
| JNum (n : Z)                          (** int or float *)
| JStr (s : string)
| JArr (items : list json)
| JObj (fields : list (string * json)). (** in document order *)

(** Looking a key up in the [dict] built from an object: the last binding. *)
Definition dict_get {V} (k : string) (kvs : list (string * V)) : option V :=
  fold_left (fun acc '(k', v) => if String.eqb k k' then Some v else acc) kvs None.

(** Iteration order of that [dict]: the first occurrence of each key. *)
Definition dict_keys {V} (kvs : list (string * V)) : list string :=
  fold_left (fun acc '(k, _) => set_add String.eqb k acc) kvs [].

(** [v['key']] *)
Definition getitem (v : json) (k : string) : result json :=
  match v with
  | JObj kvs => match dict_get k kvs with Some x => Ok x | None => Raise KeyError end
  | _ => Raise TypeError   (** list, str, number, bool and None reject a str index *)
  end.

(** [for x in v]: a str yields its characters (here its bytes), a dict its
    keys; numbers, bools and None are not iterable. *)
Definition py_iter (v : json) : result (list json) :=
  match v with
  | JArr l => Ok l
  | JObj kvs => Ok (map JStr (dict_keys kvs))
  | JStr s => Ok (map (fun c => JStr (String c EmptyString)) (list_ascii_of_string s))
  | _ => Raise TypeError
  end.

Definition json_is_str (v : json) (s : string) : bool :=
  match v with JStr s' => String.eqb s' s | _ => false end.

(** [''.join(source)] *)
Definition join_strs (v : json) : result string :=
  match py_iter v with
  | Raise e => Raise e
  | Ok items =>
      fold_right (fun it acc =>
                    match it, acc with
                    | JStr s, Ok rest => Ok (s ++ rest)%string
                    | JStr _, Raise e => Raise e
                    | _, _ => Raise TypeError
                    end) (Ok EmptyString) items
  end.

(** [[cell['source'] for cell in cells if cell['cell_type'] == 'code']] *)
Fixpoint code_cell_sources (cells : list json) : result (list json) :=
  match cells with
  | [] => Ok []
  | cell :: rest =>
      match getitem cell "cell_type" with
      | Raise e => Raise e
      | Ok ct =>
          if json_is_str ct "code" then
            match getitem cell "source" with
            | Raise e => Raise e
            | Ok src =>
                match code_cell_sources rest with
                | Raise e => Raise e
                | Ok srcs => Ok (src :: srcs)
                end
            end
          else code_cell_sources rest
      end
  end.

(** [source if isinstance(source, str) else ''.join(source)], for each *)
Fixpoint source_texts (srcs : list json) : result (list string) :=
  match srcs with
  | [] => Ok []
  | src :: rest =>
      let t := match src with JStr s => Ok s | _ => join_strs src end in
      match t, source_texts rest with
      | Raise e, _ => Raise e
      | Ok _, Raise e => Raise e
      | Ok s, Ok ss => Ok (s :: ss)
      end
  end.

(** Lines 63-73 (and 103-113): the combined code of a notebook. *)
Definition notebook_code (notebook : json) : result string :=
  match getitem notebook "cells" with
  | Raise e => Raise e
  | Ok cells =>
      match py_iter cells with
      | Raise e => Raise e
      | Ok cs =>
          match code_cell_sources cs with
          | Raise e => Raise e
          | Ok code_cells =>
              match source_texts code_cells with
              | Raise e => Raise e
              | Ok texts => Ok (String.concat (String "010" EmptyString) texts)
              end
          end
      end
  end.

(** ** The Python services the code relies on *)

Record PyEnv := {
  py_parse : string -> result node;           (** [ast.parse] *)
  json_loads : string -> result json;         (** [json.loads] *)
  stdlib_module_names : list string;          (** [sys.stdlib_module_names] *)
  find_spec : string -> result (option (option string));
    (** [importlib.util.find_spec]: None, or a spec with its [origin] *)
  distributions : list (option string * string);
    (** [(metadata['Name'], version)]; None when the metadata has no Name *)
  has_match : bool                            (** [hasattr(ast, 'Match')] *)
}.

(** ** Files: what [Path(directory).rglob('*')] yields *)

Inductive fs_kind :=
| RegularFile (contents : string)   (** raw bytes *)
| Directory.

Record fs_entry := { path : string; kind : fs_kind }.

Fixpoint split_slash (s : string) : list string :=
  match s with
  | EmptyString => [EmptyString]
  | String c rest =>
      if Ascii.eqb c "/" then EmptyString :: split_slash rest
      else match split_slash rest with
           | w :: ws => String c w :: ws
           | [] => [String c EmptyString]
           end
  end.

(** [PurePosixPath(p).name]: the last part, empty and [.] parts dropped. *)
Definition path_name (p : string) : string :=
  last (filter (fun w => negb (String.eqb w "" || String.eqb w ".")) (split_slash p)) "".

Fixpoint rfind_dot (s : string) (i : nat) (found : option nat) : option nat :=
  match s with
  | EmptyString => found
  | String c rest => rfind_dot rest (S i) (if Ascii.eqb c "." then Some i else found)
  end.

(** [PurePosixPath(p).suffix] *)
Definition path_suffix (p : string) : string :=
  let nm := path_name p in
  match rfind_dot nm 0 None with
  | Some i => if (Nat.ltb 0 i && Nat.ltb i (String.length nm - 1))%bool
              then String.substring i (String.length nm - i) nm else ""
  | None => ""
  end.

(** [open(file_path, 'r', encoding='utf-8')] *)
Definition open_file (e : fs_entry) : M string :=
  match kind e with
  | RegularFile raw => ret raw
  | Directory => raise OSError
  end.

(** ** [file.read()]: strict UTF-8 decoding, then universal newlines *)

Definition in_range (lo hi : nat) (c : ascii) : bool :=
  (Nat.leb lo (nat_of_ascii c) && Nat.leb (nat_of_ascii c) hi)%bool.

Definition is_cont (c : ascii) : bool := in_range 128 191 c.

(** The well-formed UTF-8 byte sequences (Unicode Table 3-7), the ones
    Python's strict [utf-8] codec accepts. *)
Fixpoint utf8_valid (s : string) : bool :=
  match s with
  | EmptyString => true
  | String c rest =>
      if in_range 0 127 c then utf8_valid rest
      else if in_range 194 223 c then
        match rest with
        | String c1 r => is_cont c1 && utf8_valid r
        | _ => false
        end
      else if in_range 224 239 c then
        match rest with
        | String c1 (String c2 r) =>
            (if in_range 224 224 c then in_range 160 191 c1
             else if in_range 237 237 c then in_range 128 159 c1
             else is_cont c1) && is_cont c2 && utf8_valid r
        | _ => false
        end
      else if in_range 240 244 c then
        match rest with
        | String c1 (String c2 (String c3 r)) =>
            (if in_range 240 240 c then in_range 144 191 c1
             else if in_range 244 244 c then in_range 128 143 c1
             else is_cont c1) && is_cont c2 && is_cont c3 && utf8_valid r
        | _ => false
        end
      else false
  end.

(** Text mode turns [\r\n] and [\r] into [\n]. *)
Fixpoint translate_newlines (s : string) : string :=
  match s with
  | EmptyString => EmptyString
  | String c rest =>
      if Ascii.eqb c "013" then
        match rest with
        | String c' rest' =>
            if Ascii.eqb c' "010" then String "010" (translate_newlines rest')
            else String "010" (translate_newlines rest)
        | EmptyString => String "010" EmptyString
        end
      else String c (translate_newlines rest)
  end.

Definition read_text (raw : string) : M string :=
  if utf8_valid raw then ret (translate_newlines raw) else raise UnicodeDecodeError.

(** ** The per-file analyses *)

Section Analyses.
Variable E : PyEnv.

(** [autodpd.analyze_imports] (lines 15-34) *)
Definition analyze_imports (e : fs_entry) : M (list string) :=
  raw <- open_file e;;
  parsed <- try_except
              (text <- read_text raw;;
               tree <- lift (py_parse E text);;
               ret (Some tree))
              [SyntaxError]
              (print ("Warning: Syntax error in " ++ path e)%string;; ret None);;
  match parsed with
  | None => ret []
  | Some tree => ret (tree_imports tree)
  end.

(** [autodpd.analyze_notebook_imports] (lines 52-90); the walk itself
    raises nothing, so [imports] is still empty when a handler runs. *)
Definition analyze_notebook_imports (e : fs_entry) : M (list string) :=
  try_except
    (raw <- open_file e;;
     text <- read_text raw;;
     notebook <- lift (json_loads E text);;
     combined_code <- lift (notebook_code notebook);;
     try_except
       (tree <- lift (py_parse E combined_code);; ret (tree_imports tree))
       [SyntaxError]
       (print ("Warning: Syntax error in notebook " ++ path e)%string;; ret []))
    [JSONDecodeError; KeyError]
    (print ("Warning: Could not parse notebook " ++ path e)%string;; ret []).

(** [autodpd.analyze_python_version] (lines 181-222) *)
Definition analyze_python_version (e : fs_entry) : M (list Z) :=
  raw <- open_file e;;
  parsed <- try_except
              (text <- read_text raw;;
               tree <- lift (py_parse E text);;
               ret (Some tree))
              [SyntaxError]
              (ret None);;
  match parsed with
  | None => ret []
  | Some tree => ret (tree_versions (has_match E) tree)
  end.

(** [autodpd.analyze_python_version_notebook] (lines 92-137) *)
Definition analyze_python_version_notebook (e : fs_entry) : M (list Z) :=
  try_except
    (raw <- open_file e;;
     text <- read_text raw;;
     notebook <- lift (json_loads E text);;
     combined_code <- lift (notebook_code notebook);;
     tree <- lift (py_parse E combined_code);;
     ret (tree_versions (has_match E) tree))
    [JSONDecodeError; KeyError; SyntaxError]
    (print ("Warning: Could not analyze Python version in notebook " ++ path e)%string;;
     ret []).

(** [autodpd.is_standard_library] (lines 36-50) *)
Definition is_standard_library (module_name : string) : result bool :=
  if existsb (String.eqb module_name) (stdlib_module_names E) then Ok true
  else match find_spec E module_name with
       | Raise err => Raise err
       | Ok None => Ok false
       | Ok (Some origin) =>
           let location := match origin with Some o => o | None => "" end in
           Ok (negb (str_contains "site-packages" location)
               && negb (str_contains "dist-packages" location))
       end.

(** [installed_packages] (lines 150-153): a dict, the last distribution of a
    lowered name wins; a distribution without a Name gives [None.lower()],
    an AttributeError. *)
Definition dict_set {V} (k : string) (v : V) (d : list (string * V)) : list (string * V) :=
  if existsb (fun '(k', _) => String.eqb k k') d
  then map (fun '(k', v') => if String.eqb k k' then (k', v) else (k', v')) d
  else d ++ [(k, v)].

Definition installed_packages : result (list (string * string)) :=
  fold_left (fun acc '(nm, ver) =>
               match acc with
               | Raise err => Raise err
               | Ok d => match nm with
                         | Some nm => Ok (dict_set (lower nm) ver d)
                         | None => Raise AttributeError
                         end
               end) (distributions E) (Ok []).

End Analyses.

(** ** The project-level operations *)

Record dep_sets := {
  ds_third_party : list string;
  ds_standard_lib : list string;
  ds_unknown : list string
}.

Definition empty_deps : dep_sets := {| ds_third_party := []; ds_standard_lib := []; ds_unknown := [] |}.

(** The returned [Dict[str, List[str]]] *)
Record deps := {
  third_party : list string;
  standard_lib : list string;
  unknown : list string
}.

Section Project.
Variable E : PyEnv.

(** The body of the loop of lines 164-173 for one import name. *)
Definition classify_import (installed : list (string * string)) (import_name : string)
    (d : dep_sets) : result dep_sets :=
  let import_name_lower := lower import_name in
  match is_standard_library E import_name with
  | Raise err => Raise err
  | Ok true =>
      Ok {| ds_third_party := ds_third_party d;
            ds_standard_lib := set_add String.eqb import_name (ds_standard_lib d);
            ds_unknown := ds_unknown d |}
  | Ok false =>
      match dict_get import_name_lower installed with
      | Some v =>
          Ok {| ds_third_party := set_add String.eqb (import_name ++ "==" ++ v)%string
                                          (ds_third_party d);
                ds_standard_lib := ds_standard_lib d;
                ds_unknown := ds_unknown d |}
      | None =>
          Ok {| ds_third_party := ds_third_party d;
                ds_standard_lib := ds_standard_lib d;
                ds_unknown := set_add String.eqb import_name (ds_unknown d) |}
      end
  end.

Fixpoint classify_imports (installed : list (string * string)) (imports : list string)
    (d : dep_sets) : result dep_sets :=
  match imports with
  | [] => Ok d
  | n :: rest =>
      match classify_import installed n d with
      | Raise err => Raise err
      | Ok d' => classify_imports installed rest d'
      end
  end.

(** Lines 157-162: the imports of one entry, or None when it is skipped. *)
Definition file_imports (e : fs_entry) : M (option (list string)) :=
  let suffix := path_suffix (path e) in
  if String.eqb suffix ".py" then imports <- analyze_imports E e;; ret (Some imports)
  else if String.eqb suffix ".ipynb" then
    imports <- analyze_notebook_imports E e;; ret (Some imports)
  else ret None.

Fixpoint scan_dependencies (installed : list (string * string)) (files : list fs_entry)
    (d : dep_sets) : M dep_sets :=
  match files with
  | [] => ret d
  | e :: rest =>
      imports <- file_imports e;;
      match imports with
      | None => scan_dependencies installed rest d
      | Some imports =>
          d' <- lift (classify_imports installed imports d);;
          scan_dependencies installed rest d'
      end
  end.

(** [autodpd.detect_project_dependencies] (lines 139-179); [files] is the
    listing [Path(directory).rglob('*')]. *)
Definition detect_project_dependencies (files : list fs_entry) : M deps :=
  installed <- lift (installed_packages E);;
  d <- scan_dependencies installed files empty_deps;;
  ret {| third_party := sorted (ds_third_party d);
         standard_lib := sorted (ds_standard_lib d);
         unknown := sorted (ds_unknown d) |}.

(** Lines 255-263: the union of the files' version sets. *)
Definition file_versions (e : fs_entry) : M (option (list Z)) :=
  let suffix := path_suffix (path e) in
  if String.eqb suffix ".py" then vs <- analyze_python_version E e;; ret (Some vs)
  else if String.eqb suffix ".ipynb" then
    vs <- analyze_python_version_notebook E e;; ret (Some vs)
  else ret None.

Fixpoint collect_versions (files : list fs_entry) (required_versions : list Z) : M (list Z) :=
  match files with
  | [] => ret required_versions
  | e :: rest =>
      fv <- file_versions e;;
      match fv with
      | None => collect_versions rest required_versions
      | Some file_versions =>
          collect_versions rest (set_update Z.eqb required_versions file_versions)
      end
  end.

(** Python's [max] of a non-empty iterable: the first greatest item. *)
Definition py_max (x : Z) (xs : list Z) : Z :=
  fold_left (fun m y => if m <? y then y else m) xs x.

(** [autodpd.get_python_version] (lines 247-268) *)
Definition get_python_version (files : list fs_entry) : M Z :=
  required_versions <- collect_versions files [];;
  ret (match required_versions with
       | [] => float_lit 3 "5"
       | x :: xs => py_max x xs
       end).

(** [autodpd.generate_base_requirements] (lines 270-277), declared to return
    a [Dict[str, str]] (an association list here, None being [None]): the
    body ends after the two analyses, so Python returns None. *)
Definition generate_base_requirements (files : list fs_entry)
    : M (option (list (string * string))) :=
  python_version <- get_python_version files;;
  deps <- detect_project_dependencies files;;
  ret None.

End Project.

(** ** [autodpd.predict_python_environment] (lines 279-321) *)

Inductive yaml_dep :=
| DepStr (s : string)
| DepPip (pip : list string).   (** [{'pip': [...]}] *)

Record conda_yaml := {
  y_name : string;
  y_channels : list string;
  y_dependencies : list yaml_dep
}.

Record environment := {
  recommended_python_version : Z;
  python_version_reasoning : list string;
  dependencies : deps;
  conda_environment_yaml : conda_yaml;
  base_requirements : option (option (list (string * string)))
    (** None: no such key; Some r: the value r *)
}.

Definition match_line := "Match statements detected (Python 3.10+)".
Definition dict_union_line := "Dictionary union operators detected (Python 3.9+)".
Definition walrus_line := "Walrus operator detected (Python 3.8+)".
Definition dataclass_line := "Dataclasses detected (Python 3.7+)".
Definition fstring_line := "F-strings detected (Python 3.6+)".
Definition type_hint_line := "Type hints detected (Python 3.5+)".

(** Lines 304-315 *)
Definition version_reasoning (python_version : Z) : list string :=
  (if python_version >=? float_lit 3 "10" then [match_line] else []) ++
  (if python_version >=? float_lit 3 "9" then [dict_union_line] else []) ++
  (if python_version >=? float_lit 3 "8" then [walrus_line] else []) ++
  (if python_version >=? float_lit 3 "7" then [dataclass_line] else []) ++
  (if python_version >=? float_lit 3 "6" then [fstring_line] else []) ++
  (if python_version >=? float_lit 3 "5" then [type_hint_line] else []).

Definition predict_python_environment (E : PyEnv) (directory : string)
    (files : list fs_entry) (generate_base_reqs : bool) : M environment :=
  python_version <- get_python_version E files;;
  deps <- detect_project_dependencies E files;;
  let environment :=
    {| recommended_python_version := python_version;
       python_version_reasoning := version_reasoning python_version;
       dependencies := deps;
       conda_environment_yaml :=
         {| y_name := path_name directory;
            y_channels := ["defaults"; "conda-forge"];
            y_dependencies := [DepStr ("python>=" ++ float_repr python_version)%string;
                               DepStr "pip";
                               DepPip (third_party deps)] |};
       base_requirements := None |} in
  if generate_base_reqs then
    br <- generate_base_requirements E files;;
    ret {| recommended_python_version := recommended_python_version environment;
           python_version_reasoning := python_version_reasoning environment;
           dependencies := dependencies environment;
           conda_environment_yaml := conda_environment_yaml environment;
           base_requirements := Some br |}
  else ret environment.

(** ** A concrete environment for the examples

    The services answer as CPython 3.11 does on the texts below; any other
    text is a syntax error (resp. not JSON), any other module not found. *)

Definition table {A} (tbl : list (string * A)) (miss : exc) (key : string) : result A :=
  match dict_get key tbl with Some a => Ok a | None => Raise miss end.

Definition nl : string := String "010" EmptyString.

(** [x = {} | {}] then [match x: case _: pass] *)
Definition src_union_match : string :=
  "x = {} | {}" ++ nl ++ "match x:" ++ nl ++ "    case _:" ++ nl ++ "        pass" ++ nl.
Definition tree_union_match : node :=
  Other [Other [Name "x"; BinOp (Dict []) BitOr (Dict [])];
         Match [Name "x"; Other [Other []; Other []]]].

(** [match x: case _: pass] *)
Definition src_match : string :=
  "match x:" ++ nl ++ "    case _:" ++ nl ++ "        pass" ++ nl.
Definition tree_match : node := Other [Match [Name "x"; Other [Other []; Other []]]].

(** [f'{x}'] *)
Definition src_fstring : string := "f'{x}'" ++ nl.
Definition tree_fstring : node := Other [Other [JoinedStr [Other [Name "x"; Other []]]]].

(** [import foo] *)
Definition src_import_foo : string := "import foo" ++ nl.
Definition tree_import_foo : node := Other [Import ["foo"]].

(** [import bar] *)
Definition src_import_bar : string := "import bar" ++ nl.
Definition tree_import_bar : node := Other [Import ["bar"]].

(** [import os] and [import json] *)
Definition src_import_os_json : string := "import os" ++ nl ++ "import json" ++ nl.
Definition tree_import_os_json : node := Other [Import ["os"]; Import ["json"]].

Definition env_demo : PyEnv := {|
  py_parse := table [(src_union_match, tree_union_match); (src_match, tree_match);
                     (src_fstring, tree_fstring); (src_import_foo, tree_import_foo);
                     (src_import_bar, tree_import_bar);
                     (src_import_os_json, tree_import_os_json); ("", Other [])]
                    SyntaxError;
  json_loads := table [("[]", JArr []); ("{}", JObj [])] JSONDecodeError;
  stdlib_module_names := ["json"; "os"; "sys"];
  find_spec := fun m =>
    if String.eqb m "os" then Ok (Some (Some "/usr/lib/python3.11/os.py"))
    else if String.eqb m "bar" then
      Ok (Some (Some "/usr/lib/python3.11/site-packages/bar/__init__.py"))
    else Ok None;
  distributions := [(Some "Foo", "1.0")];
  has_match := true
|}.

Definition script (p contents : string) : fs_entry :=
  {| path := p; kind := RegularFile contents |}.

(** ** Definitions that follow the spec's words, for comparison *)

(** The decision sequence of spec section 4.5 as C2 states it. *)
Inductive claimed_class :=
| CStd
| CUnknown
| CThird (entry : string).

Definition claimed_classify (E : PyEnv) (n : string) : result claimed_class :=
  if existsb (String.eqb n) (stdlib_module_names E) then Ok CStd
  else match find_spec E n with
       | Raise err => Raise err
       | Ok None => Ok CUnknown
       | Ok (Some origin) =>
           let location := match origin with Some o => o | None => "" end in
           if negb (str_contains "site-packages" location)
              && negb (str_contains "dist-packages" location)
           then Ok CStd
           else match installed_packages E with
                | Raise err => Raise err
                | Ok installed =>
                    match dict_get (lower n) installed with
                    | Some v => Ok (CThird (n ++ "==" ++ v)%string)
                    | None => Ok (CThird n)
                    end
                end
       end.

(** The amended decision sequence: the installed registry, not the
    resolution, separates third-party from unknown. *)
Definition amended_classify (E : PyEnv) (installed : list (string * string)) (n : string)
    : result claimed_class :=
  if existsb (String.eqb n) (stdlib_module_names E) then Ok CStd
  else
    let registry :=
      match dict_get (lower n) installed with
      | Some v => CThird (n ++ "==" ++ v)%string
      | None => CUnknown
      end in
    match find_spec E n with
    | Raise err => Raise err
    | Ok None => Ok registry
    | Ok (Some origin) =>
        let location := match origin with Some o => o | None => "" end in
        if str_contains "site-packages" location || str_contains "dist-packages" location
        then Ok registry
        else Ok CStd
    end.

(** Where a class puts a name in the three sets. *)
Definition place (c : claimed_class) (n : string) (d : dep_sets) : dep_sets :=
  match c with
  | CStd => {| ds_third_party := ds_third_party d;
               ds_standard_lib := set_add String.eqb n (ds_standard_lib d);
               ds_unknown := ds_unknown d |}
  | CUnknown => {| ds_third_party := ds_third_party d;
                   ds_standard_lib := ds_standard_lib d;
                   ds_unknown := set_add String.eqb n (ds_unknown d) |}
  | CThird entry => {| ds_third_party := set_add String.eqb entry (ds_third_party d);
                       ds_standard_lib := ds_standard_lib d;
                       ds_unknown := ds_unknown d |}
  end.





(** ** More files for the examples *)

Definition files_fstring : list fs_entry := [script "proj/main.py" src_fstring].
Definition files_match : list fs_entry := [script "proj/main.py" src_match].
Definition files_union_match : list fs_entry := [script "proj/main.py" src_union_match].

(** ** [autodpd.display_environment_report] (lines 323-366) *)

Fixpoint iter_M {A} (f : A -> M unit) (l : list A) : M unit :=
  match l with
  | [] => ret tt
  | x :: rest => f x;; iter_M f rest
  end.

Definition print_dep (dep : yaml_dep) : M unit :=
  match dep with
  | DepPip pip => print "  - pip:";; iter_M (fun p => print ("    - " ++ p)%string) pip
  | DepStr s => print ("  - " ++ s)%string
  end.

Definition display_environment_report (env_specs : environment) : M unit :=
  print (nl ++ "Recommended Python version: " ++
         float_repr (recommended_python_version env_specs))%string;;
  match python_version_reasoning env_specs with
  | [] => ret tt
  | reasons => print (nl ++ "Reasoning:")%string;;
               iter_M (fun r => print ("  - " ++ r)%string) reasons
  end;;
  print (nl ++ "Third-party dependencies:")%string;;
  iter_M (fun d => print ("  - " ++ d)%string) (third_party (dependencies env_specs));;
  print (nl ++ "Standard library imports:")%string;;
  iter_M (fun d => print ("  - " ++ d)%string) (standard_lib (dependencies env_specs));;
  match unknown (dependencies env_specs) with
  | [] => ret tt
  | unk => print (nl ++ "Unknown/Uninstalled imports:")%string;;
           iter_M (fun d => print ("  - " ++ d)%string) unk
  end;;
  print (nl ++ "Sample conda environment.yml:")%string;;
  print ("name: " ++ y_name (conda_environment_yaml env_specs))%string;;
  print "channels:";;
  iter_M (fun c => print ("  - " ++ c)%string) (y_channels (conda_environment_yaml env_specs));;
  print "dependencies:";;
  iter_M print_dep (y_dependencies (conda_environment_yaml env_specs));;
  print (nl ++ "Base requirements have been saved to base_requirements.txt")%string;;
  print "These represent the minimum compatible versions of each package.";;
  print "Note: It's recommended to test your code with these versions before deployment.".

(** ** The files the program writes: [save_conda_environment] and [main]

    The world of a run: the lines printed so far and the files written, by
    path, with their contents ([open(path, 'w')] replaces a file). *)
Record world := { w_out : list string; w_files : list (string * string) }.

Definition IO (A : Type) := world -> result A * world.

Definition io_ret {A} (a : A) : IO A := fun w => (Ok a, w).

Definition io_bind {A B} (m : IO A) (f : A -> IO B) : IO B :=
  fun w =>
    match m w with
    | (Ok a, w') => f a w'
    | (Raise e, w') => (Raise e, w')
    end.

(** A call of the analyses: it prints, and writes no file. *)
Definition io {A} (m : M A) : IO A :=
  fun w => let '(r, out') := m (w_out w) in (r, {| w_out := out'; w_files := w_files w |}).

Section Files.

(** [open(path, 'w')]: whether the file can be opened for writing, or the
    OSError it raises. *)
Variable open_w : string -> result unit.
(** [yaml.safe_dump(conda_env, default_flow_style=False, sort_keys=False)] *)
Variable safe_dump : conda_yaml -> string.

Definition write_file (file : string) (contents : string) : IO unit :=
  fun w =>
    match open_w file with
    | Raise e => (Raise e, w)
    | Ok _ => (Ok tt, {| w_out := w_out w; w_files := dict_set file contents (w_files w) |})
    end.

(** [autodpd.save_conda_environment] (lines 368-381) *)
Definition save_conda_environment (env_specs : environment) (output_file : string) : IO unit :=
  let conda_env :=
    {| y_name := y_name (conda_environment_yaml env_specs);
       y_channels := y_channels (conda_environment_yaml env_specs);
       y_dependencies := y_dependencies (conda_environment_yaml env_specs) |} in
  io_bind (write_file output_file (safe_dump conda_env)) (fun _ =>
  io (print (nl ++ "Conda environment configuration saved to " ++ output_file)%string)).

(** The options [parser.parse_args()] returns (lines 387-409). *)
Record cli_args := {
  directory : string;
  no_base_reqs : bool;
  no_conda : bool;
  quiet : bool
}.

(** [autodpd.main] (lines 383-421) after the arguments are parsed; [files]
    is the listing of [args.directory]. *)
Definition main (E : PyEnv) (args : cli_args) (files : list fs_entry) : IO unit :=
  io_bind (io (predict_python_environment E (directory args) files
                 (negb (no_base_reqs args)))) (fun env_specs =>
  io_bind (if negb (quiet args) then io (display_environment_report env_specs)
           else io_ret tt) (fun _ =>
  if negb (no_conda args) then save_conda_environment env_specs "environment.yml"
  else io_ret tt)).

End Files.

(** [m] leaves the file at [file] as it was. *)
Definition keeps_file {A} (file : string) (m : IO A) : Prop :=
  forall w r w', m w = (r, w') -> dict_get file (w_files w') = dict_get file (w_files w).

(** ** [autodpd.get_minimum_compatible_version] (lines 224-245)

    The [def] has no [self]; it is modelled as called with the package name.
    [time.sleep] has no observable effect here. *)

(** [try: body except Exception as e: handler(e)] *)
Definition try_except_any {A} (body : M A) (handler : exc -> M A) : M A :=
  fun out =>
    match body out with
    | (Raise e, out') => handler e out'
    | r => r
    end.

Record http_response := {
  status_code : Z;
  response_json : result json      (** [response.json()] *)
}.

(** [not ('a' in ver or 'b' in ver or 'rc' in ver)] *)
Definition is_stable (ver : string) : bool :=
  negb (str_contains "a" ver || str_contains "b" ver || str_contains "rc" ver).

Section MinimumVersion.
Variable http_get : string -> result http_response.   (** [requests.get] *)
Variable version_key : Type.
Variable version_parse : string -> result version_key. (** [version.parse] *)
Variable version_lt : version_key -> version_key -> bool.
Variable exc_str : exc -> string.                      (** [str(e)] *)

(** [sorted(vs, key=version.parse)]: the keys are computed first, then a
    stable sort; insertion after every element that is not greater. *)
Fixpoint parse_keys (vs : list string) : result (list (string * version_key)) :=
  match vs with
  | [] => Ok []
  | v :: rest =>
      match version_parse v, parse_keys rest with
      | Raise e, _ => Raise e
      | Ok _, Raise e => Raise e
      | Ok k, Ok ks => Ok ((v, k) :: ks)
      end
  end.

Fixpoint insert_by_key (x : string * version_key) (l : list (string * version_key))
    : list (string * version_key) :=
  match l with
  | [] => [x]
  | y :: ys => if version_lt (snd x) (snd y) then x :: y :: ys else y :: insert_by_key x ys
  end.

Definition sort_by_key (l : list (string * version_key)) : list (string * version_key) :=
  fold_left (fun acc x => insert_by_key x acc) l [].

Definition get_minimum_compatible_version (package_name : string) : M (option string) :=
  try_except_any
    (response <- lift (http_get ("https://pypi.org/pypi/" ++ package_name ++ "/json")%string);;
     if status_code response =? 200 then
       body <- lift (response_json response);;
       releases <- lift (getitem body "releases");;
       keys <- lift (match releases with
                     | JObj kvs => Ok (dict_keys kvs)
                     | _ => Raise AttributeError    (** no [keys] *)
                     end);;
       let stable_versions := filter is_stable keys in
       match stable_versions with
       | [] => ret None
       | _ =>
           keyed <- lift (parse_keys stable_versions);;
           match sort_by_key keyed with
           | (v, _) :: _ => ret (Some v)
           | [] => ret None
           end
       end
     else ret None)
    (fun e => print ("Warning: Could not fetch version info for " ++ package_name ++ ": " ++
                     exc_str e)%string;;
              ret None).

End MinimumVersion.

(** ** Reading the code's behaviour back: descriptions used by the extra
    properties *)

(** The feature a single node contributes (lines 194-220), as a relation. *)
Inductive node_feature (has_match : bool) : node -> Z -> Prop :=
| nf_annassign cs : node_feature has_match (AnnAssign cs) (float_lit 3 "5")
| nf_joinedstr vs : node_feature has_match (JoinedStr vs) (float_lit 3 "6")
| nf_dataclass body decs :
    In (Name "dataclass") decs -> node_feature has_match (ClassDef body decs) (float_lit 3 "7")
| nf_namedexpr t v : node_feature has_match (NamedExpr t v) (float_lit 3 "8")
| nf_dict_union l r :
    is_dict l = true \/ is_dict r = true ->
    node_feature has_match (BinOp l BitOr r) (float_lit 3 "9")
| nf_match cs : has_match = true -> node_feature has_match (Match cs) (float_lit 3 "10").

(** The names a single node contributes (lines 28-33). *)
Inductive node_import : node -> string -> Prop :=
| ni_import names n : In n names -> node_import (Import names) (first_component n)
| ni_from m : m <> "" -> node_import (ImportFrom (Some m)) (first_component m).

(** The last version recorded for a lowered distribution name. *)
Definition last_version (k : string) (dists : list (option string * string)) : option string :=
  fold_left (fun acc '(nm, ver) =>
               match nm with
               | Some nm => if String.eqb (lower nm) k then Some ver else acc
               | None => acc
               end) dists None.

(** What a notebook cell contributes to the combined code. *)
Inductive cell_contrib : json -> option string -> Prop :=
| cc_other kvs ct :
    dict_get "cell_type" kvs = Some ct -> json_is_str ct "code" = false ->
    cell_contrib (JObj kvs) None
| cc_code_str kvs ct src :
    dict_get "cell_type" kvs = Some ct -> json_is_str ct "code" = true ->
    dict_get "source" kvs = Some (JStr src) -> cell_contrib (JObj kvs) (Some src)
| cc_code_lines kvs ct lines :
    dict_get "cell_type" kvs = Some ct -> json_is_str ct "code" = true ->
    dict_get "source" kvs = Some (JArr (map JStr lines)) ->
    cell_contrib (JObj kvs) (Some (String.concat "" lines)).

(** A computation that only appends to the output, whatever was printed before. *)
Definition framed {A} (m : M A) : Prop :=
  forall out, m out = (fst (m []), out ++ snd (m [])).

(** [m] returns only values satisfying [P], whatever it prints. *)
Definition yields {A} (P : A -> Prop) (m : M A) : Prop :=
  forall out a out', m out = (Ok a, out') -> P a.

(** The version literals lines 194-220 add. *)
Definition feature_versions : list Z :=
  [float_lit 3 "5"; float_lit 3 "6"; float_lit 3 "7"; float_lit 3 "8"; float_lit 3 "9";
   float_lit 3 "10"].

Definition dep_sets_nodup (d : dep_sets) : Prop :=
  NoDup (ds_third_party d) /\ NoDup (ds_standard_lib d) /\ NoDup (ds_unknown d).

(** The texts the cells contribute, in order. *)
Definition cell_texts (contribs : list (option string)) : list string :=
  flat_map (fun o => match o with Some s => [s] | None => [] end) contribs.

(** No element has a smaller key than the head. *)
Definition head_least {K} (lt : K -> K -> bool) (l : list (string * K)) : Prop :=
  match l with
  | [] => True
  | h :: _ => forall y, In y l -> lt (snd y) (snd h) = false
  end.

(** ** Fixtures for the further properties *)

Definition files_bad : list fs_entry := [script "proj/bad.py" "(("].

(** A notebook: a markdown cell without source, then a code cell whose
    source is a list of lines. *)
Definition nb_cells : list json :=
  [JObj [("cell_type", JStr "markdown")];
   JObj [("cell_type", JStr "code");
         ("source", JArr [JStr ("import os" ++ nl); JStr ("import json" ++ nl)])]].

Definition nb_json : json := JObj [("cells", JArr nb_cells); ("nbformat", JNum 4)].

(** [env_demo], where the file text ["nb"] loads as [nb_json]. *)
Definition env_nb : PyEnv := {|
  py_parse := py_parse env_demo;
  json_loads := table [("nb", nb_json); ("{}", JObj [])] JSONDecodeError;
  stdlib_module_names := stdlib_module_names env_demo;
  find_spec := find_spec env_demo;
  distributions := distributions env_demo;
  has_match := has_match env_demo
|}.

(** PyPI as seen for the package [foo]; any other package is not found. *)
Definition pypi_releases : json :=
  JObj [("1.0", JArr []); ("0.9", JArr []); ("0.8b1", JArr []); ("0.7rc1", JArr [])].

Definition pypi_get (url : string) : result http_response :=
  if String.eqb url "https://pypi.org/pypi/foo/json"
  then Ok {| status_code := 200;
             response_json := Ok (JObj [("info", JObj []); ("releases", pypi_releases)]) |}
  else Ok {| status_code := 404; response_json := Raise JSONDecodeError |}.

(** [version.parse] on these releases, as integers ordered like the versions. *)
Definition pypi_parse : string -> result Z :=
  table [("1.0", 100); ("0.9", 90); ("0.8b1", 80); ("0.7rc1", 70)] OtherException.

Definition pypi_exc_str (e : exc) : string := "error".

(** * Sanity checks on the model *)

Example ex_suffix : path_suffix "proj/a.py" = ".py" /\ path_suffix "proj/.py" = ""
  /\ path_suffix "nb.ipynb" = ".ipynb".
Proof. vm_compute. repeat split. Qed.

Example ex_name : path_name "." = "" /\ path_name "/home/u/proj/" = "proj"
  /\ path_name "a/./b/." = "b".
Proof. vm_compute. repeat split. Qed.

Example ex_repr : float_repr 310 = "3.1" /\ float_repr 350 = "3.5" /\ float_repr 390 = "3.9".
Proof. vm_compute. repeat split. Qed.

Example ex_versions :
  fst (get_python_version env_demo [script "p/a.py" src_union_match] []) = Ok 390.
Proof. vm_compute. reflexivity. Qed.

Example ex_example1 :
  fst (detect_project_dependencies env_demo [script "p/a.py" src_import_os_json] []) =
  Ok {| third_party := []; standard_lib := ["json"; "os"]; unknown := [] |}.
Proof. vm_compute. reflexivity. Qed.

Example ex_notebook_array :
  fst (detect_project_dependencies env_demo [script "p/nb.ipynb" "[]"] []) = Raise TypeError.
Proof. vm_compute. reflexivity. Qed.

Example ex_notebook_nocells :
  detect_project_dependencies env_demo [script "p/nb.ipynb" "{}"] [] =
  (Ok {| third_party := []; standard_lib := []; unknown := [] |},
   ["Warning: Could not parse notebook p/nb.ipynb"]).
Proof. vm_compute. reflexivity. Qed.

(** ** General lemmas *)

Lemma generate_returns_none E files out r out' :
  generate_base_requirements E files out = (Ok r, out') -> r = None.
Proof.
  unfold generate_base_requirements, bind, ret.
  destruct (get_python_version E files out) as [[v|err] out1]; [|discriminate].
  destruct (detect_project_dependencies E files out1) as [[ds|err] out2]; [|discriminate].
  intros H; inversion H; reflexivity.
Qed.

Lemma predict_shape E d files gen out env out' :
  predict_python_environment E d files gen out = (Ok env, out') ->
  (exists out1, get_python_version E files out = (Ok (recommended_python_version env), out1)) /\
  python_version_reasoning env = version_reasoning (recommended_python_version env) /\
  conda_environment_yaml env =
    {| y_name := path_name d;
       y_channels := ["defaults"; "conda-forge"];
       y_dependencies :=
         [DepStr ("python>=" ++ float_repr (recommended_python_version env))%string;
          DepStr "pip";
          DepPip (third_party (dependencies env))] |} /\
  base_requirements env = (if gen then Some None else None).
Proof.
  unfold predict_python_environment, bind, ret.
  destruct (get_python_version E files out) as [[v|err] out1] eqn:Hv; [|discriminate].
  destruct (detect_project_dependencies E files out1) as [[ds|err] out2]; [|discriminate].
  destruct gen.
  - destruct (generate_base_requirements E files out2) as [[r|err] out3] eqn:Hg; [|discriminate].
    apply generate_returns_none in Hg; subst r.
    intros H; inversion H; subst; clear H; cbn.
    repeat split; eauto.
  - intros H; inversion H; subst; clear H; cbn.
    repeat split; eauto.
Qed.


(** ** Dictionaries *)

Lemma dict_get_fold {V} (k : string) (kvs : list (string * V)) (acc : option V) :
  fold_left (fun acc '(k', v) => if String.eqb k k' then Some v else acc) kvs acc =
  match dict_get k kvs with Some v => Some v | None => acc end.
Proof.
  revert acc. induction kvs as [|[k' v'] kvs IH]; intros acc; unfold dict_get; cbn [fold_left].
  - reflexivity.
  - rewrite (IH (if String.eqb k k' then Some v' else acc)),
      (IH (if String.eqb k k' then Some v' else None)).
    destruct (dict_get k kvs); [reflexivity|]. destruct (String.eqb k k'); reflexivity.
Qed.

Lemma dict_get_cons {V} (k k' : string) (v : V) (l : list (string * V)) :
  dict_get k ((k', v) :: l) =
  match dict_get k l with Some w => Some w | None => if String.eqb k k' then Some v else None end.
Proof. unfold dict_get at 1. cbn [fold_left]. apply dict_get_fold. Qed.

Lemma dict_get_snoc {V} (k k' : string) (v : V) (l : list (string * V)) :
  dict_get k (l ++ [(k', v)]) = if String.eqb k k' then Some v else dict_get k l.
Proof. unfold dict_get at 1. rewrite fold_left_app. reflexivity. Qed.

Lemma dict_get_overwrite {V} (k k' : string) (v : V) (d : list (string * V)) :
  dict_get k (map (fun '(k0, v0) => if String.eqb k' k0 then (k0, v) else (k0, v0)) d) =
  if String.eqb k k'
  then (if existsb (fun '(k0, _) => String.eqb k' k0) d then Some v else None)
  else dict_get k d.
Proof.
  induction d as [|[k0 v0] d IH]; cbn [map existsb].
  - destruct (String.eqb k k'); reflexivity.
  - destruct (String.eqb k' k0) eqn:H0; rewrite !dict_get_cons, IH.
    + apply String.eqb_eq in H0. subst k0.
      destruct (String.eqb k k'); cbn; [destruct (existsb _ d); reflexivity|reflexivity].
    + destruct (String.eqb k k') eqn:Hk; [|reflexivity].
      apply String.eqb_eq in Hk. subst k'. rewrite H0. cbn.
      destruct (existsb _ d); reflexivity.
Qed.

Lemma dict_get_set {V} (k k' : string) (v : V) (d : list (string * V)) :
  dict_get k (dict_set k' v d) = if String.eqb k k' then Some v else dict_get k d.
Proof.
  unfold dict_set. destruct (existsb (fun '(k0, _) => String.eqb k' k0) d) eqn:He.
  - rewrite dict_get_overwrite, He. reflexivity.
  - apply dict_get_snoc.
Qed.

(** ** Printing only appends to the output *)

Lemma framed_ret {A} (a : A) : framed (ret a).
Proof. intros out. unfold ret. cbn. rewrite app_nil_r. reflexivity. Qed.

Lemma framed_raise {A} (e : exc) : framed (@raise A e).
Proof. intros out. unfold raise. cbn. rewrite app_nil_r. reflexivity. Qed.

Lemma framed_print (line : string) : framed (print line).
Proof. intros out. reflexivity. Qed.

Lemma framed_lift {A} (r : result A) : framed (lift r).
Proof. destruct r; [apply framed_ret|apply framed_raise]. Qed.

Lemma framed_bind {A B} (m : M A) (f : A -> M B) :
  framed m -> (forall a, framed (f a)) -> framed (bind m f).
Proof.
  intros Hm Hf out. unfold bind. rewrite (Hm out).
  destruct (m []) as [[a|e] o]; cbn; [|reflexivity].
  rewrite (Hf a (out ++ o)), (Hf a o); cbn. rewrite app_assoc. reflexivity.
Qed.

Lemma framed_try_except {A} (body : M A) (caught : list exc) (handler : M A) :
  framed body -> framed handler -> framed (try_except body caught handler).
Proof.
  intros Hb Hh out. unfold try_except. rewrite (Hb out).
  destruct (body []) as [[a|e] o]; cbn; [reflexivity|].
  destruct (existsb (exc_eqb e) caught); [|reflexivity].
  rewrite (Hh (out ++ o)), (Hh o); cbn. rewrite app_assoc. reflexivity.
Qed.

Lemma framed_try_except_any {A} (body : M A) (handler : exc -> M A) :
  framed body -> (forall e, framed (handler e)) -> framed (try_except_any body handler).
Proof.
  intros Hb Hh out. unfold try_except_any. rewrite (Hb out).
  destruct (body []) as [[a|e] o]; cbn; [reflexivity|].
  rewrite (Hh e (out ++ o)), (Hh e o); cbn. rewrite app_assoc. reflexivity.
Qed.

Lemma framed_iter_M {A} (f : A -> M unit) (l : list A) :
  (forall a, framed (f a)) -> framed (iter_M f l).
Proof.
  intros Hf. induction l as [|x l IH]; cbn.
  - apply framed_ret.
  - apply framed_bind; [apply Hf|intros _; exact IH].
Qed.

Create HintDb framed.
#[local] Hint Resolve framed_ret framed_raise framed_print framed_lift : framed.

Ltac solve_framed :=
  repeat match goal with
  | |- framed (bind _ _) => apply framed_bind; [|intros ?]
  | |- framed (try_except _ _ _) => apply framed_try_except
  | |- framed (try_except_any _ _) => apply framed_try_except_any; [|intros ?]
  | |- framed (iter_M _ _) => apply framed_iter_M; intros ?
  | |- framed (match ?x with _ => _ end) => destruct x
  | |- framed (if ?b then _ else _) => destruct b
  | |- framed (let _ := _ in _) => cbv zeta
  | |- framed _ => solve [eauto with framed]
  end.

Lemma framed_open_file (e : fs_entry) : framed (open_file e).
Proof. unfold open_file. solve_framed. Qed.

Lemma framed_read_text (raw : string) : framed (read_text raw).
Proof. unfold read_text. solve_framed. Qed.

#[local] Hint Resolve framed_open_file framed_read_text : framed.

Lemma framed_file_imports (E : PyEnv) (e : fs_entry) : framed (file_imports E e).
Proof.
  unfold file_imports, analyze_imports, analyze_notebook_imports. solve_framed.
Qed.

Lemma framed_file_versions (E : PyEnv) (e : fs_entry) : framed (file_versions E e).
Proof.
  unfold file_versions, analyze_python_version, analyze_python_version_notebook.
  solve_framed.
Qed.

#[local] Hint Resolve framed_file_imports framed_file_versions : framed.

Lemma framed_scan_dependencies (E : PyEnv) installed files d :
  framed (scan_dependencies E installed files d).
Proof.
  revert d. induction files as [|e rest IH]; intros d; cbn; solve_framed.
Qed.

Lemma framed_collect_versions (E : PyEnv) files vs : framed (collect_versions E files vs).
Proof.
  revert vs. induction files as [|e rest IH]; intros vs; cbn; solve_framed.
Qed.

#[local] Hint Resolve framed_scan_dependencies framed_collect_versions : framed.

Lemma framed_detect (E : PyEnv) files : framed (detect_project_dependencies E files).
Proof. unfold detect_project_dependencies. solve_framed. Qed.

Lemma framed_get_python_version (E : PyEnv) files : framed (get_python_version E files).
Proof. unfold get_python_version. solve_framed. Qed.

#[local] Hint Resolve framed_detect framed_get_python_version : framed.

Lemma framed_generate (E : PyEnv) files : framed (generate_base_requirements E files).
Proof. unfold generate_base_requirements. solve_framed. Qed.

#[local] Hint Resolve framed_generate : framed.

Lemma framed_predict (E : PyEnv) d files gen :
  framed (predict_python_environment E d files gen).
Proof. unfold predict_python_environment. solve_framed. Qed.

Lemma framed_display (env_specs : environment) : framed (display_environment_report env_specs).
Proof. unfold display_environment_report, print_dep. solve_framed. Qed.

Lemma framed_min_version http_get K parse lt exc_str (package_name : string) :
  framed (get_minimum_compatible_version http_get K parse lt exc_str package_name).
Proof. unfold get_minimum_compatible_version. solve_framed. Qed.

(** ** Files the program writes *)

Lemma keeps_io {A} (file : string) (m : M A) : keeps_file file (io m).
Proof.
  intros w r w' H. unfold io in H. destruct (m (w_out w)) as [r0 o].
  inversion H; reflexivity.
Qed.

Lemma keeps_ret {A} (file : string) (a : A) : keeps_file file (io_ret a).
Proof. intros w r w' H. inversion H; reflexivity. Qed.

Lemma keeps_bind {A B} (file : string) (m : IO A) (f : A -> IO B) :
  keeps_file file m -> (forall a, keeps_file file (f a)) -> keeps_file file (io_bind m f).
Proof.
  intros Hm Hf w r w' H. unfold io_bind in H.
  destruct (m w) as [[a|e] w1] eqn:Hw.
  - rewrite (Hf a w1 r w' H). exact (Hm w _ w1 Hw).
  - inversion H; subst. exact (Hm w _ w' Hw).
Qed.

Lemma keeps_write open_w (file other contents : string) :
  other <> file -> keeps_file other (write_file open_w file contents).
Proof.
  intros Hne w r w' H. unfold write_file in H.
  destruct (open_w file); inversion H; subst; cbn [w_files]; [|reflexivity].
  rewrite dict_get_set. apply String.eqb_neq in Hne. rewrite Hne. reflexivity.
Qed.

(** * The claims *)

(** ** C1: the recommended version is the maximum of the detected features *)

(** C1 (code_bug). A script with a dict-display bitwise-or (3.9) and a match
    statement (3.10) is recommended 3.9, not 3.10: the literal [3.10] is the
    float 3.1, which [max] ranks below 3.9. *)
Theorem C1_union_and_match_recommend_3_9 :
  tree_versions true tree_union_match = [float_lit 3 "9"; float_lit 3 "10"] /\
  fst (get_python_version env_demo files_union_match []) = Ok (float_lit 3 "9") /\
  float_lit 3 "10" < float_lit 3 "9".
Proof. vm_compute. repeat split. Qed.

(** ** C2: the classification of an import name *)

(** C2 (counterexample). [foo] does not resolve but [Foo 1.0] is installed:
    the code reports [foo==1.0], the claimed sequence says unknown.  [bar]
    resolves under site-packages and is not installed: the code reports it
    unknown, the claimed sequence says third-party [bar]. *)
Theorem C2_registry_decides_third_party :
  fst (detect_project_dependencies env_demo
         [script "proj/a.py" src_import_foo; script "proj/b.py" src_import_bar] []) =
    Ok {| third_party := ["foo==1.0"]; standard_lib := []; unknown := ["bar"] |} /\
  claimed_classify env_demo "foo" = Ok CUnknown /\
  claimed_classify env_demo "bar" = Ok (CThird "bar").
Proof. vm_compute. repeat split. Qed.

(** C2 (amended). Each import name is placed as [amended_classify] says: a
    name of the standard-module set is standard-library; otherwise a name
    resolving to a location without a site-packages or dist-packages segment
    is standard-library; otherwise (unresolved, or resolved under such a
    segment) it is [name==version] when its lowercase form is an installed
    registry key and unknown when not; a resolution error propagates. *)
Theorem C2_classify_import_amended (E : PyEnv) (installed : list (string * string))
    (n : string) (d : dep_sets) :
  classify_import E installed n d =
  match amended_classify E installed n with
  | Ok c => Ok (place c n d)
  | Raise err => Raise err
  end.
Proof.
  unfold classify_import, amended_classify, is_standard_library.
  destruct (existsb (String.eqb n) (stdlib_module_names E)); [reflexivity|].
  destruct (find_spec E n) as [[[o|]|]|err]; cbn;
    try destruct (str_contains "site-packages" o);
    try destruct (str_contains "dist-packages" o); cbn;
    try destruct (dict_get (lower n) installed); reflexivity.
Qed.

(** ** C3: the reasoning lines *)

(** C3 (counterexample). A project recommended 3.6 gets the match line, the
    f-string line and the type-hint line, highest threshold first. *)
Theorem C3_reasoning_for_3_6 :
  exists env out',
    predict_python_environment env_demo "proj" files_fstring false [] = (Ok env, out') /\
    recommended_python_version env = float_lit 3 "6" /\
    python_version_reasoning env = [match_line; fstring_line; type_hint_line] /\
    python_version_reasoning env <> [type_hint_line; fstring_line].
Proof.
  eexists; eexists; split; [vm_compute; reflexivity|].
  vm_compute. repeat split. discriminate.
Qed.

(** C3 (amended). The reasoning lines come highest threshold first: an
    optional match-statement line, then for 3.9, 3.8, 3.7, 3.6 and 3.5 in
    that order the threshold's line exactly when the recommended version
    reaches it. *)
Theorem C3_reasoning_descending (E : PyEnv) (d : string) (files : list fs_entry)
    (gen : bool) (out : list string) (env : environment) (out' : list string)
    (Hrun : predict_python_environment E d files gen out = (Ok env, out')) :
  exists p, (p = [] \/ p = [match_line]) /\
    python_version_reasoning env =
      p ++ flat_map (fun '(t, line) =>
                       if recommended_python_version env >=? t then [line] else [])
                    [(float_lit 3 "9", dict_union_line); (float_lit 3 "8", walrus_line);
                     (float_lit 3 "7", dataclass_line); (float_lit 3 "6", fstring_line);
                     (float_lit 3 "5", type_hint_line)].
Proof.
  destruct (predict_shape _ _ _ _ _ _ _ Hrun) as [_ [Hr _]].
  rewrite Hr. unfold version_reasoning.
  destruct (recommended_python_version env >=? float_lit 3 "10");
    [exists [match_line] | exists []]; (split; [auto|]); cbn [flat_map app];
    repeat match goal with |- context [if ?c then _ else _] => destruct c end;
    reflexivity.
Qed.

Lemma C3_reasoning_descending_witness :
  predict_python_environment env_demo "proj" files_fstring false [] =
    (Ok {| recommended_python_version := float_lit 3 "6";
           python_version_reasoning := [match_line; fstring_line; type_hint_line];
           dependencies := {| third_party := []; standard_lib := []; unknown := [] |};
           conda_environment_yaml :=
             {| y_name := "proj"; y_channels := ["defaults"; "conda-forge"];
                y_dependencies := [DepStr "python>=3.6"; DepStr "pip"; DepPip []] |};
           base_requirements := None |}, []) /\
  exists p, (p = [] \/ p = [match_line]) /\
    [match_line; fstring_line; type_hint_line] =
      p ++ flat_map (fun '(t, line) => if float_lit 3 "6" >=? t then [line] else [])
                    [(float_lit 3 "9", dict_union_line); (float_lit 3 "8", walrus_line);
                     (float_lit 3 "7", dataclass_line); (float_lit 3 "6", fstring_line);
                     (float_lit 3 "5", type_hint_line)].
Proof.
  split; [vm_compute; reflexivity|].
  exact (C3_reasoning_descending env_demo "proj" files_fstring false [] _ []
           ltac:(vm_compute; reflexivity)).
Defined.

(** ** C5: monotonicity of the recommended version *)

(** C5 (code_bug). Adding the 3.9 feature to a match-only project lowers its
    version from 3.10 (the float 3.1) to 3.9; and a match-only project is
    below an empty one, 3.1 < 3.5, even as floats. *)
Theorem C5_superset_lowers_version :
  fst (collect_versions env_demo files_match [] []) = Ok [float_lit 3 "10"] /\
  fst (collect_versions env_demo files_union_match [] []) =
    Ok [float_lit 3 "9"; float_lit 3 "10"] /\
  fst (get_python_version env_demo files_match []) = Ok (float_lit 3 "10") /\
  fst (get_python_version env_demo files_union_match []) = Ok (float_lit 3 "9") /\
  fst (collect_versions env_demo [] [] []) = Ok [] /\
  fst (get_python_version env_demo [] []) = Ok (float_lit 3 "5") /\
  float_lit 3 "10" < float_lit 3 "5".
Proof. vm_compute. repeat split. Qed.

(** ** C6: no per-unit exception escapes *)

(** C6 (code_bug). A script that is not UTF-8 (the byte 0xFF) makes both
    [detect_project_dependencies] and [get_python_version] raise
    UnicodeDecodeError; a notebook holding the JSON array [[]] makes both
    raise TypeError. *)
Theorem C6_unit_errors_escape :
  fst (detect_project_dependencies env_demo
         [script "proj/bad.py" (String "255" EmptyString)] []) = Raise UnicodeDecodeError /\
  fst (get_python_version env_demo
         [script "proj/bad.py" (String "255" EmptyString)] []) = Raise UnicodeDecodeError /\
  fst (detect_project_dependencies env_demo [script "proj/nb.ipynb" "[]"] []) =
    Raise TypeError /\
  fst (get_python_version env_demo [script "proj/nb.ipynb" "[]"] []) = Raise TypeError.
Proof. vm_compute. repeat split. Qed.

(** ** C7: malformed notebooks *)

(** C7 (code_bug). A notebook whose JSON is the array [[]] (no [cells] key)
    is not skipped: TypeError escapes and the run over the other units (here
    a valid script) does not complete; a notebook that is not UTF-8 raises
    UnicodeDecodeError.  A JSON object without [cells] is skipped with a
    warning. *)
Theorem C7_array_notebook_aborts_run :
  fst (detect_project_dependencies env_demo
         [script "proj/nb.ipynb" "[]"; script "proj/main.py" src_import_os_json] []) =
    Raise TypeError /\
  fst (get_python_version env_demo
         [script "proj/nb.ipynb" "[]"; script "proj/main.py" src_fstring] []) =
    Raise TypeError /\
  fst (detect_project_dependencies env_demo
         [script "proj/nb.ipynb" (String "255" EmptyString)] []) = Raise UnicodeDecodeError /\
  detect_project_dependencies env_demo
    [script "proj/nb.ipynb" "{}"; script "proj/main.py" src_import_os_json] [] =
    (Ok {| third_party := []; standard_lib := ["json"; "os"]; unknown := [] |},
     ["Warning: Could not parse notebook proj/nb.ipynb"]).
Proof. vm_compute. repeat split. Qed.

(** ** C8: the manifest skeleton *)

(** C8 (code_bug). For the default directory [.] the manifest name is
    [Path('.').name], the empty string, whatever the project and whatever
    the environment: the directory is never resolved, so the project
    directory's final component (for instance [proj] for [/home/u/proj])
    does not name the environment. *)
Theorem C8_dot_directory_name_is_empty :
  (forall E files gen out env out',
     predict_python_environment E "." files gen out = (Ok env, out') ->
     y_name (conda_environment_yaml env) = "") /\
  (exists env out',
     predict_python_environment env_demo "." [script "main.py" src_fstring] false [] =
       (Ok env, out') /\
     y_name (conda_environment_yaml env) = "") /\
  path_name "/home/u/proj" = "proj".
Proof.
  split; [|split].
  - intros E files gen out env out' Hrun.
    destruct (predict_shape _ _ _ _ _ _ _ Hrun) as [_ [_ [Hy _]]].
    rewrite Hy. vm_compute. reflexivity.
  - eexists; eexists; split; [vm_compute; reflexivity|]. vm_compute. reflexivity.
  - vm_compute. reflexivity.
Qed.

(** ** C9: the thresholds are floats *)

(** C9. The literal [3.10] is the float [3.1], below [3.9]; a project whose
    only detected feature is a match statement is recommended 3.1 and its
    manifest pins [python>=3.1]. *)
Theorem C9_match_only_recommends_3_1 (E : PyEnv) (files : list fs_entry)
    (out : list string)
    (Honly : fst (collect_versions E files [] out) = Ok [float_lit 3 "10"]) :
  float_lit 3 "10" = float_lit 3 "1" /\
  float_lit 3 "10" < float_lit 3 "9" /\
  fst (get_python_version E files out) = Ok (float_lit 3 "1") /\
  forall d gen env out',
    predict_python_environment E d files gen out = (Ok env, out') ->
    recommended_python_version env = float_lit 3 "1" /\
    hd_error (y_dependencies (conda_environment_yaml env)) = Some (DepStr "python>=3.1").
Proof.
  assert (Hv : fst (get_python_version E files out) = Ok (float_lit 3 "1")).
  { unfold get_python_version, bind, ret.
    destruct (collect_versions E files [] out) as [[vs|err] out1]; cbn in Honly;
      inversion Honly; subst; reflexivity. }
  split; [reflexivity|]. split; [vm_compute; reflexivity|]. split; [exact Hv|].
  intros d gen env out' Hrun.
  destruct (predict_shape _ _ _ _ _ _ _ Hrun) as [[out1 Hg] [_ [Hy _]]].
  rewrite Hg in Hv. cbn in Hv. inversion Hv as [Hrec].
  split; [exact Hrec|].
  rewrite Hy, Hrec. reflexivity.
Qed.

Lemma C9_match_only_recommends_3_1_witness :
  fst (collect_versions env_demo files_match [] []) = Ok [float_lit 3 "10"] /\
  (float_lit 3 "10" = float_lit 3 "1" /\
   float_lit 3 "10" < float_lit 3 "9" /\
   fst (get_python_version env_demo files_match []) = Ok (float_lit 3 "1") /\
   forall d gen env out',
     predict_python_environment env_demo d files_match gen [] = (Ok env, out') ->
     recommended_python_version env = float_lit 3 "1" /\
     hd_error (y_dependencies (conda_environment_yaml env)) = Some (DepStr "python>=3.1")).
Proof.
  split; [vm_compute; reflexivity|].
  exact (C9_match_only_recommends_3_1 env_demo files_match [] ltac:(vm_compute; reflexivity)).
Defined.

(** ** C10: base requirements *)

(** C10. [generate_base_requirements] returns None and prints nothing of its
    own: what it prints is what the two analyses print. With
    [generate_base_reqs = True], [predict_python_environment] stores None
    under [base_requirements]. And no run of [main], whatever its options,
    writes a file other than [environment.yml]: no requirements file is
    written. *)
Theorem C10_base_requirements_none (E : PyEnv) (files : list fs_entry) :
  (forall out r out',
     generate_base_requirements E files out = (Ok r, out') ->
     r = None /\
     out' = out ++ snd (get_python_version E files []) ++
                   snd (detect_project_dependencies E files [])) /\
  (forall d out env out',
     predict_python_environment E d files true out = (Ok env, out') ->
     base_requirements env = Some None) /\
  (forall open_w safe_dump args file,
     file <> "environment.yml" ->
     keeps_file file (main open_w safe_dump E args files)).
Proof.
  split; [|split].
  - intros out r out' H. split; [exact (generate_returns_none _ _ _ _ _ H)|].
    revert H. unfold generate_base_requirements, bind, ret.
    rewrite (framed_get_python_version E files out).
    destruct (get_python_version E files []) as [[v|e] g]; cbn; [|discriminate].
    rewrite (framed_detect E files (out ++ g)).
    destruct (detect_project_dependencies E files []) as [[ds|e] t]; cbn; [|discriminate].
    intros H; inversion H. rewrite app_assoc. reflexivity.
  - intros d out env out' H. destruct (predict_shape _ _ _ _ _ _ _ H) as [_ [_ [_ Hb]]].
    exact Hb.
  - intros open_w safe_dump args file Hne. unfold main.
    apply keeps_bind; [apply keeps_io|intros env_specs].
    apply keeps_bind; [destruct (negb (quiet args)); [apply keeps_io|apply keeps_ret]|intros _].
    destruct (negb (no_conda args)); [|apply keeps_ret].
    unfold save_conda_environment.
    apply keeps_bind; [apply keeps_write; exact Hne|intros _; apply keeps_io].
Qed.

Lemma C10_base_requirements_none_witness :
  generate_base_requirements env_demo files_bad [] =
    (Ok None, ["Warning: Syntax error in proj/bad.py"]) /\
  ["Warning: Syntax error in proj/bad.py"] =
    [] ++ snd (get_python_version env_demo files_bad []) ++
          snd (detect_project_dependencies env_demo files_bad []) /\
  w_files (snd (main (fun _ => Ok tt) (fun _ => "name: proj") env_demo
                  {| directory := "proj"; no_base_reqs := false; no_conda := false;
                     quiet := true |} files_bad {| w_out := []; w_files := [] |})) =
    [("environment.yml", "name: proj")] /\
  keeps_file "base_requirements.txt"
    (main (fun _ => Ok tt) (fun _ => "name: proj") env_demo
       {| directory := "proj"; no_base_reqs := false; no_conda := false; quiet := true |}
       files_bad).
Proof.
  destruct (C10_base_requirements_none env_demo files_bad) as [Hg [_ Hm]].
  assert (H : generate_base_requirements env_demo files_bad [] =
                (Ok None, ["Warning: Syntax error in proj/bad.py"])) by (vm_compute; reflexivity).
  split; [exact H|]. split; [exact (proj2 (Hg _ _ _ H))|].
  split; [vm_compute; reflexivity|].
  apply Hm. discriminate.
Defined.

(** ** C4: the three partitions *)

Lemma set_add_In (x y : string) (s : list string) :
  In x (set_add String.eqb y s) <-> x = y \/ In x s.
Proof.
  unfold set_add. destruct (existsb (String.eqb y) s) eqn:He.
  - apply existsb_exists in He as [z [Hz Heq]]. apply String.eqb_eq in Heq. subst z.
    split; [auto|]. intros [->|H]; assumption.
  - rewrite in_app_iff. cbn. split.
    + intros [H|[H|[]]]; auto.
    + intros [H|H]; auto.
Qed.






Section Partitions.
Variable E : PyEnv.
Variable installed : list (string * string).






End Partitions.



Definition files_mixed : list fs_entry :=
  [script "proj/a.py" src_import_foo; script "proj/b.py" src_import_bar;
   script "proj/c.py" src_import_os_json; script "proj/d.txt" "notes"].


(** * Further properties of the code *)

(** X2. With [generate_base_reqs] set, both analyses run a second time, so
    every warning the analyses print appears twice, in the same order. *)
Theorem base_reqs_repeat_diagnostics (E : PyEnv) d files out env out' :
  predict_python_environment E d files true out = (Ok env, out') ->
  out' = out ++ (snd (get_python_version E files []) ++ snd (detect_project_dependencies E files []))
             ++ (snd (get_python_version E files []) ++ snd (detect_project_dependencies E files [])).
Proof.
  unfold predict_python_environment, generate_base_requirements, bind, ret.
  rewrite (framed_get_python_version E files out).
  destruct (get_python_version E files []) as [[v|e] g] eqn:Hg; cbn; [|discriminate].
  rewrite (framed_detect E files (out ++ g)).
  destruct (detect_project_dependencies E files []) as [[ds|e] t] eqn:Ht; cbn; [|discriminate].
  rewrite (framed_get_python_version E files ((out ++ g) ++ t)), Hg; cbn.
  rewrite (framed_detect E files (((out ++ g) ++ t) ++ g)), Ht; cbn.
  intros H; inversion H; subst. rewrite !app_assoc. reflexivity.
Qed.


(** ** Sets, and what the tree walks collect *)

Lemma set_add_In_gen {A} (eqb : A -> A -> bool) (Heqb : forall a b, eqb a b = true <-> a = b)
    (x y : A) (s : list A) :
  In x (set_add eqb y s) <-> x = y \/ In x s.
Proof.
  unfold set_add. destruct (existsb (eqb y) s) eqn:He.
  - apply existsb_exists in He as [z [Hz Heq]]. apply Heqb in Heq. subst z.
    split; [auto|]. intros [->|H]; assumption.
  - rewrite in_app_iff. cbn. split.
    + intros [H|[H|[]]]; auto.
    + intros [H|H]; auto.
Qed.

Lemma set_add_NoDup {A} (eqb : A -> A -> bool) (Heqb : forall a b, eqb a b = true <-> a = b)
    (x : A) (s : list A) :
  NoDup s -> NoDup (set_add eqb x s).
Proof.
  intros Hs. unfold set_add. destruct (existsb (eqb x) s) eqn:He; [exact Hs|].
  apply NoDup_app; [exact Hs|constructor; [intros []|constructor]|].
  intros y Hy Hin. destruct Hin as [Hxy|[]]. subst y.
  assert (existsb (eqb x) s = true) as Hc.
  { apply existsb_exists. exists x. split; [exact Hy|apply Heqb; reflexivity]. }
  congruence.
Qed.

Lemma set_add_In_Z (x y : Z) (s : list Z) : In x (set_add Z.eqb y s) <-> x = y \/ In x s.
Proof. apply set_add_In_gen. intros a b. apply Z.eqb_eq. Qed.

Lemma fold_names_In (names acc : list string) (x : string) :
  In x (fold_left (fun acc name => set_add String.eqb (first_component name) acc) names acc) <->
  In x acc \/ exists n, In n names /\ x = first_component n.
Proof.
  revert acc. induction names as [|n names IH]; intros acc; cbn.
  - split; [auto|intros [H|[n [[] _]]]; exact H].
  - rewrite IH, set_add_In. split.
    + intros [[->|H]|[m [Hm ->]]]; eauto.
    + intros [H|[m [[<-|Hm] ->]]]; eauto.
Qed.

Lemma node_imports_In (n : node) (acc : list string) (x : string) :
  In x (node_imports n acc) <-> In x acc \/ node_import n x.
Proof.
  destruct n as [names|[m|]| | | | | | | | |]; cbn;
    try (split; [auto|intros [H|H]; [exact H|inversion H]]).
  - rewrite fold_names_In. split.
    + intros [H|[m [Hm ->]]]; [auto|right; constructor; exact Hm].
    + intros [H|H]; [auto|inversion H; subst; eauto].
  - destruct (String.eqb m "") eqn:Hm.
    + apply String.eqb_eq in Hm. subst m.
      split; [auto|intros [H|H]; [exact H|inversion H; congruence]].
    + apply String.eqb_neq in Hm. rewrite set_add_In. split.
      * intros [->|H]; [right; constructor; exact Hm|auto].
      * intros [H|H]; [auto|inversion H; subst; auto].
Qed.

Lemma fold_imports_In (ns : list node) (acc : list string) (x : string) :
  In x (fold_left (fun acc n => node_imports n acc) ns acc) <->
  In x acc \/ exists n, In n ns /\ node_import n x.
Proof.
  revert acc. induction ns as [|n ns IH]; intros acc; cbn.
  - split; [auto|intros [H|[n [[] _]]]; exact H].
  - rewrite IH, node_imports_In. split.
    + intros [[H|H]|[m [Hm H]]]; eauto.
    + intros [H|[m [[<-|Hm] H]]]; eauto.
Qed.

Lemma tree_imports_In (tree : node) (x : string) :
  In x (tree_imports tree) <-> exists n, In n (walk tree) /\ node_import n x.
Proof.
  unfold tree_imports. rewrite fold_imports_In. split; [intros [[]|H]; exact H|auto].
Qed.

Lemma tree_imports_NoDup (tree : node) : NoDup (tree_imports tree).
Proof.
  unfold tree_imports. generalize (@NoDup_nil string).
  generalize (@nil string) as acc. induction (walk tree) as [|n ns IH]; intros acc Hacc; cbn.
  - exact Hacc.
  - apply IH. destruct n as [names|[m|]| | | | | | | | |]; cbn; try exact Hacc.
    + revert acc Hacc. induction names as [|nm names IHn]; intros acc Hacc; cbn; [exact Hacc|].
      apply IHn. apply set_add_NoDup; [apply String.eqb_eq|exact Hacc].
    + destruct (String.eqb m ""); [exact Hacc|].
      apply set_add_NoDup; [apply String.eqb_eq|exact Hacc].
Qed.

Lemma first_component_no_dot (s : string) : str_contains "." (first_component s) = false.
Proof.
  induction s as [|c s IH]; [reflexivity|]. cbn [first_component].
  destruct (Ascii.eqb c ".") eqn:Hc; [reflexivity|].
  cbn [str_contains]. rewrite IH, orb_false_r. cbn [String.prefix].
  destruct (ascii_dec "." c) as [<-|]; [discriminate|reflexivity].
Qed.

Lemma node_import_no_dot (n : node) (x : string) :
  node_import n x -> str_contains "." x = false.
Proof. intros H. inversion H; apply first_component_no_dot. Qed.

Lemma dataclass_fold_In (decs : list node) (vs : list Z) (v : Z) :
  In v (fold_left (fun acc d =>
                     match d with
                     | Name id => if String.eqb id "dataclass"
                                  then set_add Z.eqb (float_lit 3 "7") acc
                                  else acc
                     | _ => acc
                     end) decs vs) <->
  In v vs \/ (v = float_lit 3 "7" /\ In (Name "dataclass") decs).
Proof.
  revert vs. induction decs as [|d decs IH]; intros vs; cbn.
  - split; [auto|intros [H|[_ []]]; exact H].
  - rewrite IH. destruct d; try (split; [intros [H|[-> H]]; auto
                                      |intros [H|[-> [H|H]]]; [auto|discriminate|auto]]).
    destruct (String.eqb id "dataclass") eqn:Hid.
    + apply String.eqb_eq in Hid. subst id. rewrite set_add_In_Z.
      split; [intros [[->|H]|[-> H]]; auto|intros [H|[-> [H|H]]]; auto].
    + apply String.eqb_neq in Hid.
      split; [intros [H|[-> H]]; auto
             |intros [H|[-> [H|H]]]; [auto|inversion H; congruence|auto]].
Qed.

Lemma node_versions_In (hm : bool) (n : node) (vs : list Z) (v : Z) :
  In v (node_versions hm n vs) <-> In v vs \/ node_feature hm n v.
Proof.
  destruct n as [names|m|cs|cs|body decs|t u|l op r|cs|cs|id|cs]; cbn [node_versions];
    try (split; [auto|intros [H|H]; [exact H|inversion H]]).
  - rewrite set_add_In_Z. split; [intros [->|H]; [right; constructor|auto]|].
    intros [H|H]; [auto|inversion H; auto].
  - rewrite set_add_In_Z. split; [intros [->|H]; [right; constructor|auto]|].
    intros [H|H]; [auto|inversion H; auto].
  - rewrite dataclass_fold_In. split.
    + intros [H|[-> H]]; [auto|right; constructor; exact H].
    + intros [H|H]; [auto|inversion H; auto].
  - rewrite set_add_In_Z. split; [intros [->|H]; [right; constructor|auto]|].
    intros [H|H]; [auto|inversion H; auto].
  - destruct op.
    + destruct (is_dict l || is_dict r) eqn:Hd.
      * rewrite set_add_In_Z. apply orb_true_iff in Hd.
        split; [intros [->|H]; [right; constructor; exact Hd|auto]|].
        intros [H|H]; [auto|inversion H; auto].
      * apply orb_false_iff in Hd as [Hl Hr].
        split; [auto|intros [H|H]; [exact H|inversion H; subst; intuition congruence]].
    + split; [auto|intros [H|H]; [exact H|inversion H]].
  - destruct hm.
    + rewrite set_add_In_Z. split; [intros [->|H]; [right; constructor; reflexivity|auto]|].
      intros [H|H]; [auto|inversion H; auto].
    + split; [auto|intros [H|H]; [exact H|inversion H; discriminate]].
Qed.

Lemma tree_versions_In (hm : bool) (tree : node) (v : Z) :
  In v (tree_versions hm tree) <-> exists n, In n (walk tree) /\ node_feature hm n v.
Proof.
  unfold tree_versions.
  assert (forall ns acc, In v (fold_left (fun acc n => node_versions hm n acc) ns acc) <->
                         In v acc \/ exists n, In n ns /\ node_feature hm n v) as Hf.
  { induction ns as [|n ns IH]; intros acc; cbn.
    - split; [auto|intros [H|[n [[] _]]]; exact H].
    - rewrite IH, node_versions_In. split.
      + intros [[H|H]|[m [Hm H]]]; eauto.
      + intros [H|[m [[<-|Hm] H]]]; eauto. }
  rewrite Hf. split; [intros [[]|H]; exact H|auto].
Qed.


Lemma node_feature_range (hm : bool) (n : node) (v : Z) :
  node_feature hm n v -> In v feature_versions.
Proof. intros H. inversion H; subst; unfold feature_versions; cbn; tauto. Qed.

Lemma tree_versions_range (hm : bool) (tree : node) (v : Z) :
  In v (tree_versions hm tree) -> In v feature_versions.
Proof.
  rewrite tree_versions_In. intros [n [_ Hn]]. exact (node_feature_range _ _ _ Hn).
Qed.

Lemma yields_ret {A} (P : A -> Prop) (a : A) : P a -> yields P (ret a).
Proof. intros Ha out b out' H. inversion H; subst. exact Ha. Qed.

Lemma yields_raise {A} (P : A -> Prop) (e : exc) : yields P (raise e).
Proof. intros out b out' H. discriminate. Qed.

Lemma yields_bind {A B} (Q : A -> Prop) (P : B -> Prop) (m : M A) (f : A -> M B) :
  yields Q m -> (forall a, Q a -> yields P (f a)) -> yields P (bind m f).
Proof.
  intros Hm Hf out b out'. unfold bind.
  destruct (m out) as [[a|e] o] eqn:Ho; [|discriminate].
  exact (Hf a (Hm _ _ _ Ho) o b out').
Qed.

Lemma yields_any {A} (m : M A) : yields (fun _ => True) m.
Proof. intros out a out' _. exact I. Qed.

Lemma yields_try_except {A} (P : A -> Prop) (body : M A) (caught : list exc) (handler : M A) :
  yields P body -> yields P handler -> yields P (try_except body caught handler).
Proof.
  intros Hb Hh out a out'. unfold try_except.
  destruct (body out) as [[b|e] o] eqn:Ho.
  - intros H; inversion H; subst. exact (Hb _ _ _ Ho).
  - destruct (existsb (exc_eqb e) caught); [apply Hh|discriminate].
Qed.

Lemma yields_try_except_any {A} (P : A -> Prop) (body : M A) (handler : exc -> M A) :
  yields P body -> (forall e, yields P (handler e)) -> yields P (try_except_any body handler).
Proof.
  intros Hb Hh out a out'. unfold try_except_any.
  destruct (body out) as [[b|e] o] eqn:Ho.
  - intros H; inversion H; subst. exact (Hb _ _ _ Ho).
  - apply Hh.
Qed.

Lemma yields_lift {A} (P : A -> Prop) (r : result A) :
  (forall a, r = Ok a -> P a) -> yields P (lift r).
Proof. destruct r; intros H; [apply yields_ret, H; reflexivity|apply yields_raise]. Qed.

Ltac solve_yields :=
  repeat match goal with
  | |- yields _ (bind _ _) => apply (yields_bind (fun _ => True)); [apply yields_any|intros ? _]
  | |- yields _ (try_except _ _ _) => apply yields_try_except
  | |- yields _ (try_except_any _ _) => apply yields_try_except_any; [|intros ?]
  | |- yields _ (ret _) => apply yields_ret
  | |- yields _ (raise _) => apply yields_raise
  | |- yields _ (match ?x with _ => _ end) => destruct x
  | |- yields _ (if ?b then _ else _) => destruct b
  | |- yields _ (let _ := _ in _) => cbv zeta
  end.

Lemma analyze_python_version_range (E : PyEnv) (e : fs_entry) :
  yields (fun vs => forall v, In v vs -> In v feature_versions) (analyze_python_version E e).
Proof.
  unfold analyze_python_version. solve_yields; intros v Hv;
    solve [destruct Hv | exact (tree_versions_range _ _ _ Hv)].
Qed.

Lemma analyze_python_version_notebook_range (E : PyEnv) (e : fs_entry) :
  yields (fun vs => forall v, In v vs -> In v feature_versions)
         (analyze_python_version_notebook E e).
Proof.
  unfold analyze_python_version_notebook. solve_yields; intros v Hv;
    solve [destruct Hv | exact (tree_versions_range _ _ _ Hv)].
Qed.

Lemma file_versions_range (E : PyEnv) (e : fs_entry) out vs out' :
  file_versions E e out = (Ok (Some vs), out') -> forall v, In v vs -> In v feature_versions.
Proof.
  assert (yields (fun r => forall vs, r = Some vs -> forall v, In v vs -> In v feature_versions)
                 (file_versions E e)) as Hy.
  { unfold file_versions.
    destruct (String.eqb (path_suffix (path e)) ".py");
      [|destruct (String.eqb (path_suffix (path e)) ".ipynb")].
    - apply (yields_bind _ _ _ _ (analyze_python_version_range E e)).
      intros a Ha. apply yields_ret. intros vs0 H; inversion H; subst; exact Ha.
    - apply (yields_bind _ _ _ _ (analyze_python_version_notebook_range E e)).
      intros a Ha. apply yields_ret. intros vs0 H; inversion H; subst; exact Ha.
    - apply yields_ret. discriminate. }
  intros H. exact (Hy _ _ _ H vs eq_refl).
Qed.

Lemma set_update_In_Z (s t : list Z) (x : Z) :
  In x (set_update Z.eqb s t) <-> In x s \/ In x t.
Proof.
  unfold set_update. revert s. induction t as [|y t IH]; intros s; cbn.
  - tauto.
  - rewrite IH, set_add_In_Z. firstorder congruence.
Qed.

Lemma collect_versions_range (E : PyEnv) files acc out r out' :
  (forall v, In v acc -> In v feature_versions) ->
  collect_versions E files acc out = (Ok r, out') ->
  forall v, In v r -> In v feature_versions.
Proof.
  revert acc out. induction files as [|e rest IH]; intros acc out Hacc H;
    cbn [collect_versions] in H.
  - unfold ret in H. inversion H; subst. exact Hacc.
  - unfold bind in H.
    destruct (file_versions E e out) as [[[vs|]|err] o] eqn:Hf; [| |discriminate].
    + refine (IH _ _ _ H). intros v Hv. apply set_update_In_Z in Hv as [Hv|Hv];
        [exact (Hacc v Hv)|exact (file_versions_range _ _ _ _ _ Hf v Hv)].
    + exact (IH _ _ Hacc H).
Qed.

Lemma py_max_In (x : Z) (xs : list Z) : In (py_max x xs) (x :: xs).
Proof.
  unfold py_max. revert x. induction xs as [|y xs IH]; intros x; cbn; [auto|].
  destruct (x <? y).
  - specialize (IH y). destruct IH as [H|H]; auto.
  - specialize (IH x). destruct IH as [H|H]; auto.
Qed.

Lemma get_python_version_in_range (E : PyEnv) files out v out' :
  get_python_version E files out = (Ok v, out') -> In v feature_versions.
Proof.
  unfold get_python_version, bind, ret.
  destruct (collect_versions E files [] out) as [[vs|err] o] eqn:Hc; [|discriminate].
  intros H; inversion H; subst; clear H.
  destruct vs as [|x xs]; [unfold feature_versions; cbn; tauto|].
  apply (collect_versions_range E files [] out (x :: xs) _ (fun v Hv => match Hv with end) Hc).
  apply py_max_In.
Qed.

(** ** The per-file analyses *)

(** X3. A script that decodes and parses yields, without printing anything,
    the top-level names of its [import] statements and of its absolute
    [from ... import] statements: each once, none containing a dot. *)
Theorem analyze_imports_names (E : PyEnv) (p raw : string) (tree : node) out :
  utf8_valid raw = true -> py_parse E (translate_newlines raw) = Ok tree ->
  exists names,
    analyze_imports E {| path := p; kind := RegularFile raw |} out = (Ok names, out) /\
    NoDup names /\ (forall x, In x names -> str_contains "." x = false) /\
    (forall x, In x names <-> exists n, In n (walk tree) /\ node_import n x).
Proof.
  intros Hu Hp. exists (tree_imports tree).
  unfold analyze_imports, open_file, read_text, try_except, bind, lift, ret, raise; cbn [kind].
  rewrite Hu, Hp. split; [reflexivity|]. split; [apply tree_imports_NoDup|]. split.
  - intros x Hx. apply tree_imports_In in Hx as [n [_ Hn]]. exact (node_import_no_dot _ _ Hn).
  - intros x. apply tree_imports_In.
Qed.

(** X4. A notebook whose JSON loads and whose combined code parses yields,
    without printing anything, the import names of that combined code. *)
Theorem analyze_notebook_imports_names (E : PyEnv) (p raw : string) (nb : json)
    (code : string) (tree : node) out :
  utf8_valid raw = true -> json_loads E (translate_newlines raw) = Ok nb ->
  notebook_code nb = Ok code -> py_parse E code = Ok tree ->
  analyze_notebook_imports E {| path := p; kind := RegularFile raw |} out =
    (Ok (tree_imports tree), out).
Proof.
  intros Hu Hj Hc Hp.
  unfold analyze_notebook_imports, open_file, read_text, try_except, bind, lift, ret, raise;
    cbn [kind].
  rewrite Hu, Hj, Hc, Hp. reflexivity.
Qed.

(** X5. A script that decodes and parses yields, without printing anything,
    exactly the versions of the features found in its tree, each once. *)
Theorem analyze_python_version_features (E : PyEnv) (p raw : string) (tree : node) out :
  utf8_valid raw = true -> py_parse E (translate_newlines raw) = Ok tree ->
  exists vs,
    analyze_python_version E {| path := p; kind := RegularFile raw |} out = (Ok vs, out) /\
    (forall v, In v vs <-> exists n, In n (walk tree) /\ node_feature (has_match E) n v).
Proof.
  intros Hu Hp. exists (tree_versions (has_match E) tree).
  unfold analyze_python_version, open_file, read_text, try_except, bind, lift, ret, raise;
    cbn [kind].
  rewrite Hu, Hp. split; [reflexivity|]. intros v. apply tree_versions_In.
Qed.

(** X6. The recommended version is always one of the six literals the code
    adds (3.5, 3.6, 3.7, 3.8, 3.9 and 3.10, the latter being the float 3.1). *)
Theorem recommended_version_range (E : PyEnv) files out v out' :
  get_python_version E files out = (Ok v, out') -> In v feature_versions.
Proof. apply get_python_version_in_range. Qed.

(** X7. Every report's reasoning starts with the match-statement line,
    whatever the code contains: each possible version is at least the
    float 3.1 that the literal [3.10] denotes. *)
Theorem reasoning_starts_with_match_line (E : PyEnv) d files gen out env out' :
  predict_python_environment E d files gen out = (Ok env, out') ->
  hd_error (python_version_reasoning env) = Some match_line.
Proof.
  intros H. destruct (predict_shape _ _ _ _ _ _ _ H) as [[o Hv] [Hr _]].
  rewrite Hr. apply get_python_version_in_range in Hv.
  unfold feature_versions in Hv.
  destruct Hv as [<-|[<-|[<-|[<-|[<-|[<-|[]]]]]]]; reflexivity.
Qed.


(** X8. A script that decodes but does not parse: the import analysis
    prints one warning naming it and finds nothing, the version analysis
    finds nothing and prints nothing. *)
Theorem syntax_error_script (E : PyEnv) (p raw : string) out :
  utf8_valid raw = true -> py_parse E (translate_newlines raw) = Raise SyntaxError ->
  analyze_imports E {| path := p; kind := RegularFile raw |} out =
    (Ok [], out ++ [("Warning: Syntax error in " ++ p)%string]) /\
  analyze_python_version E {| path := p; kind := RegularFile raw |} out = (Ok [], out).
Proof.
  intros Hu Hp.
  unfold analyze_imports, analyze_python_version, open_file, read_text, try_except,
    bind, lift, ret, raise, print; cbn [kind].
  rewrite Hu, Hp. split; reflexivity.
Qed.

(** X9. A notebook that is not JSON, or whose JSON lacks a key the code
    reads, is skipped by both notebook analyses, each printing its warning. *)
Theorem unparsable_notebook_skipped (E : PyEnv) (p raw : string) out :
  utf8_valid raw = true ->
  (json_loads E (translate_newlines raw) = Raise JSONDecodeError \/
   exists nb, json_loads E (translate_newlines raw) = Ok nb /\ notebook_code nb = Raise KeyError) ->
  analyze_notebook_imports E {| path := p; kind := RegularFile raw |} out =
    (Ok [], out ++ [("Warning: Could not parse notebook " ++ p)%string]) /\
  analyze_python_version_notebook E {| path := p; kind := RegularFile raw |} out =
    (Ok [], out ++ [("Warning: Could not analyze Python version in notebook " ++ p)%string]).
Proof.
  intros Hu Hj.
  unfold analyze_notebook_imports, analyze_python_version_notebook, open_file, read_text,
    try_except, bind, lift, ret, raise, print; cbn [kind].
  rewrite Hu. destruct Hj as [Hj|[nb [Hj Hc]]]; rewrite Hj; [|rewrite Hc]; split; reflexivity.
Qed.

Lemma scan_skip (E : PyEnv) installed pre e post d out :
  String.eqb (path_suffix (path e)) ".py" = false ->
  String.eqb (path_suffix (path e)) ".ipynb" = false ->
  scan_dependencies E installed (pre ++ e :: post) d out =
  scan_dependencies E installed (pre ++ post) d out.
Proof.
  intros H1 H2. revert d out. induction pre as [|x pre IH]; intros d out; cbn.
  - unfold bind at 1, file_imports.
    rewrite H1, H2. reflexivity.
  - unfold bind. destruct (file_imports E x out) as [[[imps|]|err] o]; [| |reflexivity].
    + unfold lift. destruct (classify_imports E installed imps d); [apply IH|reflexivity].
    + apply IH.
Qed.

Lemma collect_skip (E : PyEnv) pre e post vs out :
  String.eqb (path_suffix (path e)) ".py" = false ->
  String.eqb (path_suffix (path e)) ".ipynb" = false ->
  collect_versions E (pre ++ e :: post) vs out = collect_versions E (pre ++ post) vs out.
Proof.
  intros H1 H2. revert vs out. induction pre as [|x pre IH]; intros vs out; cbn.
  - unfold bind at 1, file_versions.
    rewrite H1, H2. reflexivity.
  - unfold bind. destruct (file_versions E x out) as [[[fv|]|err] o]; [apply IH|apply IH|reflexivity].
Qed.

Lemma scan_app (E : PyEnv) installed pre l d out :
  scan_dependencies E installed (pre ++ l) d out =
  match scan_dependencies E installed pre d out with
  | (Ok d', o) => scan_dependencies E installed l d' o
  | (Raise err, o) => (Raise err, o)
  end.
Proof.
  revert d out. induction pre as [|x pre IH]; intros d out; cbn; [reflexivity|].
  unfold bind. destruct (file_imports E x out) as [[[imps|]|err] o]; [| |reflexivity].
  - unfold lift, ret, raise. destruct (classify_imports E installed imps d); [apply IH|reflexivity].
  - apply IH.
Qed.

Lemma collect_app (E : PyEnv) pre l vs out :
  collect_versions E (pre ++ l) vs out =
  match collect_versions E pre vs out with
  | (Ok vs', o) => collect_versions E l vs' o
  | (Raise err, o) => (Raise err, o)
  end.
Proof.
  revert vs out. induction pre as [|x pre IH]; intros vs out; cbn; [reflexivity|].
  unfold bind. destruct (file_versions E x out) as [[[fv|]|err] o]; [apply IH|apply IH|reflexivity].
Qed.

Lemma unreadable_heads (E : PyEnv) installed (e : fs_entry) rest d vs out err :
  (path_suffix (path e) = ".py" \/ path_suffix (path e) = ".ipynb") ->
  (kind e = Directory /\ err = OSError \/
   exists raw, kind e = RegularFile raw /\ utf8_valid raw = false /\ err = UnicodeDecodeError) ->
  scan_dependencies E installed (e :: rest) d out = (Raise err, out) /\
  collect_versions E (e :: rest) vs out = (Raise err, out).
Proof.
  intros Hs Hk. destruct e as [p k]; cbn [path kind] in *.
  cbn [scan_dependencies collect_versions].
  unfold file_imports, file_versions; cbn [path].
  destruct Hs as [Hs|Hs]; rewrite Hs; cbn [String.eqb Ascii.eqb Bool.eqb andb];
    unfold analyze_imports, analyze_notebook_imports, analyze_python_version,
      analyze_python_version_notebook, open_file, read_text, try_except, bind, lift, ret, raise;
    cbn [kind];
    (destruct Hk as [[-> ->]|[raw [-> [Hu ->]]]]; [|rewrite Hu]); split; reflexivity.
Qed.

(** X10. A [.py] or [.ipynb] entry that cannot be read, a directory
    ([OSError]) or a file that is not UTF-8 ([UnicodeDecodeError]), aborts
    both project analyses with that exception, wherever it sits in the
    listing: once the entries before it are analysed without an exception,
    the run raises it, printing nothing for it or for any later entry. *)
Theorem unreadable_source_aborts (E : PyEnv) pre (e : fs_entry) rest out err :
  (path_suffix (path e) = ".py" \/ path_suffix (path e) = ".ipynb") ->
  (kind e = Directory /\ err = OSError \/
   exists raw, kind e = RegularFile raw /\ utf8_valid raw = false /\ err = UnicodeDecodeError) ->
  (forall ds o, detect_project_dependencies E pre out = (Ok ds, o) ->
                detect_project_dependencies E (pre ++ e :: rest) out = (Raise err, o)) /\
  (forall v o, get_python_version E pre out = (Ok v, o) ->
               get_python_version E (pre ++ e :: rest) out = (Raise err, o)).
Proof.
  intros Hs Hk. split.
  - intros ds o. unfold detect_project_dependencies, bind, lift, ret, raise.
    destruct (installed_packages E) as [inst|err']; [|discriminate].
    rewrite scan_app.
    destruct (scan_dependencies E inst pre empty_deps out) as [[d'|err'] o']; [|discriminate].
    intros H; inversion H; subst o'.
    rewrite (proj1 (unreadable_heads E inst e rest d' [] o err Hs Hk)). reflexivity.
  - intros v o. unfold get_python_version, bind, ret.
    rewrite collect_app.
    destruct (collect_versions E pre [] out) as [[vs|err'] o']; [|discriminate].
    intros H; inversion H; subst o'.
    rewrite (proj2 (unreadable_heads E [] e rest empty_deps vs o err Hs Hk)). reflexivity.
Qed.

(** X11. An entry whose suffix is neither [.py] nor [.ipynb] (a directory
    included) changes neither analysis, wherever it sits in the listing. *)
Theorem non_source_entries_ignored (E : PyEnv) pre e post out :
  String.eqb (path_suffix (path e)) ".py" = false ->
  String.eqb (path_suffix (path e)) ".ipynb" = false ->
  detect_project_dependencies E (pre ++ e :: post) out =
    detect_project_dependencies E (pre ++ post) out /\
  get_python_version E (pre ++ e :: post) out = get_python_version E (pre ++ post) out.
Proof.
  intros H1 H2. unfold detect_project_dependencies, get_python_version, bind, lift.
  rewrite collect_skip by assumption. split; [|reflexivity].
  destruct (installed_packages E) as [inst|err]; [|reflexivity].
  unfold ret. rewrite scan_skip by assumption. reflexivity.
Qed.

(** ** The dependency lists *)

Lemma insert_sorted_perm (x : string) (l : list string) : Permutation (insert_sorted x l) (x :: l).
Proof.
  induction l as [|y l IH]; cbn; [reflexivity|].
  destruct (String.leb x y); [reflexivity|].
  rewrite IH. apply perm_swap.
Qed.

Lemma sorted_perm (l : list string) : Permutation (sorted l) l.
Proof.
  induction l as [|x l IH]; cbn; [reflexivity|].
  rewrite insert_sorted_perm, IH. reflexivity.
Qed.

Lemma insert_sorted_Sorted (x : string) (l : list string) :
  Sorted (fun a b => String.leb a b = true) l ->
  Sorted (fun a b => String.leb a b = true) (insert_sorted x l).
Proof.
  induction l as [|y l IH]; intros Hs; cbn.
  - repeat constructor.
  - destruct (String.leb x y) eqn:Hxy.
    + constructor; [exact Hs|constructor; exact Hxy].
    + apply Sorted_inv in Hs as [Hl Hy]. constructor; [apply IH, Hl|].
      assert (String.leb y x = true) as Hyx
        by (destruct (String.leb_total x y); congruence).
      destruct l as [|z l]; cbn; [constructor; exact Hyx|].
      apply HdRel_inv in Hy. destruct (String.leb x z); constructor; assumption.
Qed.

Lemma sorted_Sorted (l : list string) : Sorted (fun a b => String.leb a b = true) (sorted l).
Proof. induction l as [|x l IH]; cbn; [constructor|apply insert_sorted_Sorted, IH]. Qed.

Lemma classify_imports_nodup (E : PyEnv) installed imports d d' :
  dep_sets_nodup d -> classify_imports E installed imports d = Ok d' -> dep_sets_nodup d'.
Proof.
  revert d. induction imports as [|n rest IH]; intros d Hd Hc; cbn in Hc.
  - inversion Hc; subst. exact Hd.
  - destruct (classify_import E installed n d) as [d1|err] eqn:H1; [|discriminate].
    apply (IH d1); [|exact Hc].
    unfold classify_import in H1. destruct Hd as [Ht [Hs Hu]].
    destruct (is_standard_library E n) as [[|]|err]; [|destruct (dict_get (lower n) installed)|];
      inversion H1; subst; clear H1; unfold dep_sets_nodup; cbn;
      repeat split; try assumption; apply set_add_NoDup; try assumption;
      apply String.eqb_eq.
Qed.

Lemma scan_dependencies_nodup (E : PyEnv) installed files d :
  dep_sets_nodup d -> yields dep_sets_nodup (scan_dependencies E installed files d).
Proof.
  revert d. induction files as [|e rest IH]; intros d Hd; cbn.
  - apply yields_ret, Hd.
  - apply (yields_bind (fun _ => True)); [apply yields_any|]. intros [imps|] _; [|apply IH, Hd].
    apply (yields_bind (fun d' => dep_sets_nodup d')); [|intros d' Hd'; apply IH, Hd'].
    apply yields_lift. intros d' Hc. exact (classify_imports_nodup _ _ _ _ _ Hd Hc).
Qed.

(** X12. Each of the three returned lists is in byte order (the order of
    [sorted] on [str]) and holds no entry twice. *)
Theorem dependency_lists_sorted_unique (E : PyEnv) files out ds out' :
  detect_project_dependencies E files out = (Ok ds, out') ->
  forall l, In l [third_party ds; standard_lib ds; unknown ds] ->
  Sorted (fun a b => String.leb a b = true) l /\ NoDup l.
Proof.
  unfold detect_project_dependencies, bind, lift, ret, raise.
  destruct (installed_packages E) as [inst|err]; cbv beta iota; [|discriminate].
  destruct (scan_dependencies E inst files empty_deps out)
    as [[d|err] o] eqn:Hs; [|discriminate].
  intros H; inversion H; subst; clear H.
  assert (dep_sets_nodup d) as [Ht [Hst Hu]].
  { refine (scan_dependencies_nodup E _ files empty_deps _ _ _ _ Hs).
    repeat split; constructor. }
  intros l [<-|[<-|[<-|[]]]]; cbn; (split; [apply sorted_Sorted|]);
    eapply Permutation_NoDup; try (symmetry; apply sorted_perm); assumption.
Qed.


(** ** The installed-package registry *)

Lemma last_version_snoc (k : string) nm ver (l : list (option string * string)) :
  last_version k (l ++ [(nm, ver)]) =
  match nm with
  | Some nm => if String.eqb (lower nm) k then Some ver else last_version k l
  | None => last_version k l
  end.
Proof. unfold last_version at 1. rewrite fold_left_app. reflexivity. Qed.

Lemma installed_packages_spec (E : PyEnv) :
  match installed_packages E with
  | Ok installed =>
      (forall nv, In nv (distributions E) -> fst nv <> None) /\
      forall k, dict_get k installed = last_version k (distributions E)
  | Raise err => err = AttributeError /\ exists ver, In (None, ver) (distributions E)
  end.
Proof.
  unfold installed_packages. induction (distributions E) as [|[nm ver] l IH] using rev_ind.
  - cbn. split; [intros _ []|reflexivity].
  - rewrite fold_left_app. cbn [fold_left].
    destruct (fold_left _ l (Ok [])) as [inst|err].
    + destruct IH as [Hn Hk]. destruct nm as [nm|].
      * split.
        -- intros nv Hin. apply in_app_or in Hin as [Hin|[<-|[]]]; [exact (Hn nv Hin)|discriminate].
        -- intros k. rewrite dict_get_set, last_version_snoc, Hk, String.eqb_sym. reflexivity.
      * split; [reflexivity|]. exists ver. apply in_or_app. right. left. reflexivity.
    + destruct IH as [He [ver' Hin]]. split; [exact He|].
      exists ver'. apply in_or_app. left. exact Hin.
Qed.

(** X13. [installed_packages] raises AttributeError exactly when a
    distribution has no Name; otherwise looking a lowered name up in it
    gives the version of the last distribution whose lowered name it is
    (None when there is none): a later distribution of the same name
    overrides. *)
Theorem installed_packages_last_wins (E : PyEnv) :
  match installed_packages E with
  | Ok installed =>
      (forall nv, In nv (distributions E) -> fst nv <> None) /\
      forall k, dict_get k installed = last_version k (distributions E)
  | Raise err => err = AttributeError /\ exists ver, In (None, ver) (distributions E)
  end.
Proof. exact (installed_packages_spec E). Qed.

(** ** Notebooks *)

Lemma append_empty_r (s : string) : (s ++ "")%string = s.
Proof. induction s as [|c s IH]; cbn; [reflexivity|rewrite IH; reflexivity]. Qed.

Lemma join_lines (lines : list string) :
  join_strs (JArr (map JStr lines)) = Ok (String.concat "" lines).
Proof.
  unfold join_strs. cbn [py_iter].
  induction lines as [|x [|y ls] IH]; cbn [map fold_right] in *; [reflexivity| |].
  - rewrite append_empty_r. reflexivity.
  - rewrite IH. reflexivity.
Qed.

Lemma code_cells_contrib (cells : list json) (contribs : list (option string)) :
  Forall2 cell_contrib cells contribs ->
  exists srcs, code_cell_sources cells = Ok srcs /\ source_texts srcs = Ok (cell_texts contribs).
Proof.
  induction 1 as [|c o cells contribs Hc Hall IH]; [exists []; split; reflexivity|].
  destruct IH as [srcs [Hs Ht]].
  inversion Hc as [kvs ct Hct Hcode|kvs ct src Hct Hcode Hsrc|kvs ct lines Hct Hcode Hsrc];
    subst; cbn [code_cell_sources getitem]; rewrite Hct, Hcode.
  - exists srcs. split; [exact Hs|exact Ht].
  - rewrite Hsrc, Hs. exists (JStr src :: srcs). split; [reflexivity|].
    cbn. rewrite Ht. reflexivity.
  - rewrite Hsrc, Hs. exists (JArr (map JStr lines) :: srcs). split; [reflexivity|].
    cbn [source_texts]. rewrite join_lines, Ht. reflexivity.
Qed.

(** X14. For a notebook whose cells all carry a [cell_type], the combined
    code joins with newlines the sources of the code cells, a list source
    being concatenated; the other cells are never asked for a source. *)
Theorem notebook_code_of_cells (kvs : list (string * json)) (cells : list json)
    (contribs : list (option string)) :
  dict_get "cells" kvs = Some (JArr cells) -> Forall2 cell_contrib cells contribs ->
  notebook_code (JObj kvs) = Ok (String.concat nl (cell_texts contribs)).
Proof.
  intros Hc Hall. destruct (code_cells_contrib _ _ Hall) as [srcs [Hs Ht]].
  unfold notebook_code. cbn [getitem]. rewrite Hc. cbn [py_iter]. rewrite Hs, Ht. reflexivity.
Qed.

(** ** Projects without sources *)

Lemma scan_none (E : PyEnv) installed files d out :
  Forall (fun e => String.eqb (path_suffix (path e)) ".py" = false /\
                   String.eqb (path_suffix (path e)) ".ipynb" = false) files ->
  scan_dependencies E installed files d out = (Ok d, out).
Proof.
  induction 1 as [|e files [H1 H2] _ IH]; [reflexivity|].
  cbn. unfold bind at 1, file_imports. rewrite H1, H2. exact IH.
Qed.

Lemma collect_none (E : PyEnv) files vs out :
  Forall (fun e => String.eqb (path_suffix (path e)) ".py" = false /\
                   String.eqb (path_suffix (path e)) ".ipynb" = false) files ->
  collect_versions E files vs out = (Ok vs, out).
Proof.
  induction 1 as [|e files [H1 H2] _ IH]; [reflexivity|].
  cbn. unfold bind at 1, file_versions. rewrite H1, H2. exact IH.
Qed.

Lemma installed_packages_named (E : PyEnv) :
  (forall nv, In nv (distributions E) -> fst nv <> None) ->
  exists installed, installed_packages E = Ok installed.
Proof.
  intros Hn. pose proof (installed_packages_spec E) as H.
  destruct (installed_packages E) as [inst|err]; [eauto|].
  destruct H as [_ [ver Hin]]. destruct (Hn _ Hin eq_refl).
Qed.

(** X15. When every installed distribution has a Name, a listing without
    [.py] or [.ipynb] entries gives, silently, the version 3.5 with the
    match and type-hint reasons and three empty dependency lists. *)
Theorem no_sources_defaults (E : PyEnv) d files gen out :
  (forall nv, In nv (distributions E) -> fst nv <> None) ->
  Forall (fun e => String.eqb (path_suffix (path e)) ".py" = false /\
                   String.eqb (path_suffix (path e)) ".ipynb" = false) files ->
  exists env,
    predict_python_environment E d files gen out = (Ok env, out) /\
    recommended_python_version env = float_lit 3 "5" /\
    python_version_reasoning env = [match_line; type_hint_line] /\
    dependencies env = {| third_party := []; standard_lib := []; unknown := [] |}.
Proof.
  intros Hn Hf. destruct (installed_packages_named E Hn) as [inst Hi].
  unfold predict_python_environment, generate_base_requirements, get_python_version,
    detect_project_dependencies, bind, lift, ret.
  rewrite Hi.
  destruct gen;
    repeat (first [rewrite collect_none by exact Hf | rewrite scan_none by exact Hf];
            cbv beta iota);
    eexists; repeat (split; [reflexivity|]); reflexivity.
Qed.


(** ** [get_minimum_compatible_version] *)

Section MinimumVersionFacts.
Variable K : Type.
Variable parse : string -> result K.
Variable lt : K -> K -> bool.

Lemma parse_keys_spec (vs : list string) (kl : list (string * K)) :
  parse_keys K parse vs = Ok kl ->
  forall w kw, In (w, kw) kl -> In w vs /\ parse w = Ok kw.
Proof using Type.
  revert kl. induction vs as [|v vs IH]; intros kl H; cbn in H.
  - inversion H; subst. intros w kw [].
  - destruct (parse v) as [k|e] eqn:Hv; [|discriminate].
    destruct (parse_keys K parse vs) as [ks|e]; [|discriminate].
    inversion H; subst. intros w kw [Hw|Hw].
    + inversion Hw; subst. split; [left; reflexivity|exact Hv].
    + destruct (IH ks eq_refl w kw Hw) as [H1 H2]. split; [right; exact H1|exact H2].
Qed.

Lemma parse_keys_complete (vs : list string) (kl : list (string * K)) :
  parse_keys K parse vs = Ok kl ->
  forall w, In w vs -> exists kw, In (w, kw) kl /\ parse w = Ok kw.
Proof using Type.
  revert kl. induction vs as [|v vs IH]; intros kl H w Hw; cbn in H; [destruct Hw|].
  destruct (parse v) as [k|e] eqn:Hv; [|discriminate].
  destruct (parse_keys K parse vs) as [ks|e]; [|discriminate].
  inversion H; subst. destruct Hw as [<-|Hw].
  - exists k. split; [left; reflexivity|exact Hv].
  - destruct (IH ks eq_refl w Hw) as [kw [H1 H2]]. exists kw. split; [right; exact H1|exact H2].
Qed.

Lemma insert_by_key_In (x y : string * K) (l : list (string * K)) :
  In y (insert_by_key K lt x l) <-> y = x \/ In y l.
Proof using Type.
  induction l as [|z l IH]; cbn.
  - split; [intros [<-|[]]; left; reflexivity|intros [->|[]]; left; reflexivity].
  - destruct (lt (snd x) (snd z)); cbn.
    + split; (intros [H|H]; [left; symmetry; exact H|right; exact H]).
    + rewrite IH. split; intros [H|[H|H]]; auto.
Qed.

Lemma sort_by_key_In (l : list (string * K)) (y : string * K) :
  In y (sort_by_key K lt l) <-> In y l.
Proof using Type.
  unfold sort_by_key.
  assert (forall acc, In y (fold_left (fun acc x => insert_by_key K lt x acc) l acc) <->
                      In y acc \/ In y l) as H.
  { induction l as [|x l IH]; intros acc; cbn.
    { split; [intros H; left; exact H|intros [H|[]]; exact H]. }
    rewrite IH, insert_by_key_In. split.
    - intros [[->|H]|H]; [right; left; reflexivity|left; exact H|right; right; exact H].
    - intros [H|[<-|H]]; [left; right; exact H|left; left; reflexivity|right; exact H]. }
  rewrite H. cbn. split; [intros [[]|H']; exact H'|intros H'; right; exact H'].
Qed.

Hypothesis lt_asym : forall a b, lt a b = true -> lt b a = false.
Hypothesis lt_trans : forall a b c, lt a b = true -> lt b c = true -> lt a c = true.

Lemma lt_irrefl (a : K) : lt a a = false.
Proof using lt_asym. destruct (lt a a) eqn:H; [|reflexivity]. rewrite (lt_asym _ _ H) in H. discriminate. Qed.

Lemma insert_by_key_least (x : string * K) (l : list (string * K)) :
  head_least lt l -> head_least lt (insert_by_key K lt x l).
Proof using lt_asym lt_trans.
  destruct l as [|z l]; cbn; intros Hl.
  - intros y [<-|[]]. apply lt_irrefl.
  - destruct (lt (snd x) (snd z)) eqn:Hxz; cbn.
    + intros y [<-|[<-|Hy]]; [apply lt_irrefl|exact (lt_asym _ _ Hxz)|].
      destruct (lt (snd y) (snd x)) eqn:Hyx; [|reflexivity].
      specialize (Hl y (or_intror Hy)). rewrite (lt_trans _ _ _ Hyx Hxz) in Hl. exact Hl.
    + intros y [<-|Hy]; [apply lt_irrefl|].
      apply insert_by_key_In in Hy as [->|Hy]; [exact Hxz|exact (Hl y (or_intror Hy))].
Qed.

Lemma sort_by_key_least (l : list (string * K)) : head_least lt (sort_by_key K lt l).
Proof using lt_asym lt_trans.
  unfold sort_by_key.
  assert (forall acc, head_least lt acc ->
                      head_least lt (fold_left (fun acc x => insert_by_key K lt x acc) l acc)) as H.
  { induction l as [|x l IH]; intros acc Hacc; cbn; [exact Hacc|].
    apply IH, insert_by_key_least, Hacc. }
  apply H. exact I.
Qed.

End MinimumVersionFacts.

Lemma silent_ret {A} (a : A) out : snd (ret a out) = out.
Proof. reflexivity. Qed.

Lemma silent_raise {A} (e : exc) out : snd (@raise A e out) = out.
Proof. reflexivity. Qed.

Lemma silent_lift {A} (r : result A) out : snd (lift r out) = out.
Proof. destruct r; reflexivity. Qed.

Lemma silent_bind {A B} (m : M A) (f : A -> M B) :
  (forall out, snd (m out) = out) -> (forall a out, snd (f a out) = out) ->
  forall out, snd (bind m f out) = out.
Proof.
  intros Hm Hf out. unfold bind. specialize (Hm out).
  destruct (m out) as [[a|e] o]; cbn in *; [rewrite Hf|]; exact Hm.
Qed.

Ltac solve_silent :=
  repeat match goal with
  | |- forall _, _ => intros
  | |- snd (bind _ _ _) = _ => apply silent_bind
  | |- snd (ret _ _) = _ => apply silent_ret
  | |- snd (raise _ _) = _ => apply silent_raise
  | |- snd (lift _ _) = _ => apply silent_lift
  | |- snd ((match ?x with _ => _ end) _) = _ => destruct x
  | |- snd ((if ?b then _ else _) _) = _ => destruct b
  | |- snd ((let _ := _ in _) _) = _ => cbv zeta
  end.

(** X16. The PyPI lookup never raises: it returns silently, or returns None
    after printing one warning with the exception's text. *)
Theorem min_version_never_raises http_get K parse lt exc_str (package_name : string) out :
  (exists r, get_minimum_compatible_version http_get K parse lt exc_str package_name out =
             (Ok r, out)) \/
  (exists e, get_minimum_compatible_version http_get K parse lt exc_str package_name out =
             (Ok None, out ++ [("Warning: Could not fetch version info for " ++ package_name ++
                                ": " ++ exc_str e)%string])).
Proof.
  unfold get_minimum_compatible_version, try_except_any.
  match goal with |- context [match ?body out with _ => _ end] =>
    assert (forall o, snd (body o) = o) as Hs;
    [|specialize (Hs out); destruct (body out) as [[r|e] o]; cbn in Hs; subst o]
  end.
  - solve_silent.
  - left. exists r. reflexivity.
  - right. exists e. reflexivity.
Qed.

(** X17. An answer other than 200 gives None, silently. *)
Theorem min_version_non_200 http_get K parse lt exc_str (package_name : string)
    (resp : http_response) out :
  http_get ("https://pypi.org/pypi/" ++ package_name ++ "/json")%string = Ok resp ->
  status_code resp <> 200 ->
  get_minimum_compatible_version http_get K parse lt exc_str package_name out = (Ok None, out).
Proof.
  intros Hg Hs. unfold get_minimum_compatible_version, try_except_any, bind, lift, ret.
  rewrite Hg. apply Z.eqb_neq in Hs. rewrite Hs. reflexivity.
Qed.

(** X18. A returned version is a key of the package's [releases] containing
    none of [a], [b] and [rc]; and, when [version.parse]'s order is a strict
    order, no such key parses to a smaller version. *)
Theorem min_version_is_least_stable_release http_get K parse lt exc_str
    (package_name : string) out v out' :
  (forall a b, lt a b = true -> lt b a = false) ->
  (forall a b c, lt a b = true -> lt b c = true -> lt a c = true) ->
  get_minimum_compatible_version http_get K parse lt exc_str package_name out =
    (Ok (Some v), out') ->
  out' = out /\
  exists resp body kvs kv,
    http_get ("https://pypi.org/pypi/" ++ package_name ++ "/json")%string = Ok resp /\
    status_code resp = 200 /\ response_json resp = Ok body /\
    getitem body "releases" = Ok (JObj kvs) /\
    In v (dict_keys kvs) /\ is_stable v = true /\ parse v = Ok kv /\
    forall w kw, In w (dict_keys kvs) -> is_stable w = true -> parse w = Ok kw ->
                 lt kw kv = false.
Proof.
  intros Hasym Htrans.
  unfold get_minimum_compatible_version, try_except_any, bind, lift, ret, raise, print.
  destruct (http_get _) as [resp|e] eqn:Hg; cbn; [|discriminate].
  destruct (status_code resp =? 200) eqn:Hs; cbn; [|discriminate].
  apply Z.eqb_eq in Hs.
  destruct (response_json resp) as [body|e] eqn:Hb; cbn; [|discriminate].
  destruct (getitem body "releases") as [rel|e] eqn:Hr; cbn; [|discriminate].
  destruct rel as [| | | | |kvs]; cbn; try discriminate.
  destruct (filter is_stable (dict_keys kvs)) as [|s0 ss] eqn:Hf; cbn -[parse_keys];
    [discriminate|].
  destruct (parse_keys K parse (s0 :: ss)) as [kl|e] eqn:Hk; cbn -[sort_by_key]; [|discriminate].
  pose proof (sort_by_key_least K lt Hasym Htrans kl) as Hl.
  pose proof (sort_by_key_In K lt kl) as Hin.
  destruct (sort_by_key K lt kl) as [|[v0 kv] rest]; cbn; [discriminate|].
  intros H; inversion H; subst; clear H.
  split; [reflexivity|]. exists resp, body, kvs, kv.
  assert (In (v, kv) kl) as Hv by (apply Hin; left; reflexivity).
  destruct (parse_keys_spec K parse _ _ Hk v kv Hv) as [Hvs Hpv].
  rewrite <- Hf in Hvs. apply filter_In in Hvs as [Hvk Hvst].
  repeat (split; [first [reflexivity|assumption]|]).
  intros w kw Hw Hst Hpw.
  assert (In w (s0 :: ss)) as Hw' by (rewrite <- Hf; apply filter_In; split; assumption).
  destruct (parse_keys_complete K parse _ _ Hk w Hw') as [kw' [Hwk Hpw']].
  rewrite Hpw in Hpw'. inversion Hpw'; subst kw'.
  apply (Hl (w, kw)), Hin, Hwk.
Qed.


(** ** [display_environment_report] *)

Lemma emits_print (line : string) : exists w, forall out, print line out = (Ok tt, out ++ w).
Proof. exists [line]. reflexivity. Qed.

Lemma emits_ret : exists w, forall out, @ret unit tt out = (Ok tt, out ++ w).
Proof. exists []. intros out. rewrite app_nil_r. reflexivity. Qed.

Lemma emits_then (m m' : M unit) (tail : list string) :
  (exists w1, forall out, m out = (Ok tt, out ++ w1)) ->
  (exists w2, forall out, m' out = (Ok tt, out ++ w2 ++ tail)) ->
  exists w, forall out, (m;; m') out = (Ok tt, out ++ w ++ tail).
Proof.
  intros [w1 H1] [w2 H2]. exists (w1 ++ w2). intros out. unfold bind.
  rewrite H1, H2, !app_assoc. reflexivity.
Qed.

Lemma emits_iter {A} (f : A -> M unit) (l : list A) :
  (forall a, exists w, forall out, f a out = (Ok tt, out ++ w)) ->
  exists w, forall out, iter_M f l out = (Ok tt, out ++ w).
Proof.
  intros Hf. induction l as [|x l IH]; cbn; [apply emits_ret|].
  destruct (Hf x) as [w1 H1]. destruct IH as [w2 H2]. exists (w1 ++ w2). intros out.
  unfold bind. rewrite H1, H2, app_assoc. reflexivity.
Qed.

Lemma emits_print_dep (dep : yaml_dep) : exists w, forall out, print_dep dep out = (Ok tt, out ++ w).
Proof.
  destruct dep as [s|pip]; cbn; [apply emits_print|].
  destruct (emits_iter (fun p => print ("    - " ++ p)%string) pip (fun p => emits_print _))
    as [w H]. exists ("  - pip:" :: w). intros out. unfold bind, print. rewrite H, <- app_assoc.
  reflexivity.
Qed.

Lemma emits_seq (m m' : M unit) :
  (exists w1, forall out, m out = (Ok tt, out ++ w1)) ->
  (exists w2, forall out, m' out = (Ok tt, out ++ w2)) ->
  exists w, forall out, (m;; m') out = (Ok tt, out ++ w).
Proof.
  intros [w1 H1] [w2 H2]. exists (w1 ++ w2). intros out. unfold bind.
  rewrite H1, H2, app_assoc. reflexivity.
Qed.

Ltac emits_tac :=
  lazymatch goal with
  | |- exists w, forall out, print _ out = _ => apply emits_print
  | |- exists w, forall out, ret tt out = _ => apply emits_ret
  | |- exists w, forall out, print_dep _ out = _ => apply emits_print_dep
  | |- exists w, forall out, iter_M _ _ out = _ => apply emits_iter; intros; emits_tac
  | |- exists w, forall out, bind _ _ out = _ => apply emits_seq; emits_tac
  | |- exists w, forall out, (match ?x with _ => _ end) out = _ => destruct x; emits_tac
  end.

(** X19. The report never fails and always closes with the three lines
    about [base_requirements.txt], also for an environment computed
    without base requirements. *)
Theorem report_ends_with_base_requirements (env_specs : environment) out :
  exists lines, display_environment_report env_specs out =
    (Ok tt, out ++ lines ++
       [(nl ++ "Base requirements have been saved to base_requirements.txt")%string;
        "These represent the minimum compatible versions of each package.";
        "Note: It's recommended to test your code with these versions before deployment."]).
Proof.
  assert (exists w, forall o, display_environment_report env_specs o =
    (Ok tt, o ++ w ++
       [(nl ++ "Base requirements have been saved to base_requirements.txt")%string;
        "These represent the minimum compatible versions of each package.";
        "Note: It's recommended to test your code with these versions before deployment."]))
    as [w H].
  { unfold display_environment_report.
    do 13 (apply emits_then; [emits_tac|]).
    exists []. intros o. unfold bind, print. rewrite <- !app_assoc. reflexivity. }
  exists w. apply H.
Qed.


(** ** Witnesses: the properties' premises met on concrete inputs *)

Lemma base_reqs_repeat_diagnostics_witness :
  predict_python_environment env_demo "proj" files_bad true [] =
    (Ok {| recommended_python_version := float_lit 3 "5";
           python_version_reasoning := [match_line; type_hint_line];
           dependencies := {| third_party := []; standard_lib := []; unknown := [] |};
           conda_environment_yaml :=
             {| y_name := "proj"; y_channels := ["defaults"; "conda-forge"];
                y_dependencies := [DepStr "python>=3.5"; DepStr "pip"; DepPip []] |};
           base_requirements := Some None |},
     ["Warning: Syntax error in proj/bad.py"; "Warning: Syntax error in proj/bad.py"]) /\
  ["Warning: Syntax error in proj/bad.py"; "Warning: Syntax error in proj/bad.py"] =
    [] ++ (snd (get_python_version env_demo files_bad []) ++
           snd (detect_project_dependencies env_demo files_bad []))
       ++ (snd (get_python_version env_demo files_bad []) ++
           snd (detect_project_dependencies env_demo files_bad [])).
Proof.
  match goal with |- ?A /\ _ => assert (H : A) by (vm_compute; reflexivity) end.
  split; [exact H|]. exact (base_reqs_repeat_diagnostics env_demo "proj" files_bad [] _ _ H).
Defined.

Lemma analyze_imports_names_witness :
  (utf8_valid src_import_os_json = true /\
   py_parse env_demo (translate_newlines src_import_os_json) = Ok tree_import_os_json) /\
  exists names,
    analyze_imports env_demo {| path := "proj/c.py"; kind := RegularFile src_import_os_json |} [] =
      (Ok names, []) /\
    NoDup names /\ (forall x, In x names -> str_contains "." x = false) /\
    (forall x, In x names <-> exists n, In n (walk tree_import_os_json) /\ node_import n x).
Proof.
  split; [split; vm_compute; reflexivity|].
  exact (analyze_imports_names env_demo "proj/c.py" src_import_os_json tree_import_os_json []
           ltac:(vm_compute; reflexivity) ltac:(vm_compute; reflexivity)).
Defined.

Lemma analyze_notebook_imports_names_witness :
  (utf8_valid "nb" = true /\ json_loads env_nb (translate_newlines "nb") = Ok nb_json /\
   notebook_code nb_json = Ok src_import_os_json /\
   py_parse env_nb src_import_os_json = Ok tree_import_os_json) /\
  analyze_notebook_imports env_nb {| path := "proj/n.ipynb"; kind := RegularFile "nb" |} [] =
    (Ok (tree_imports tree_import_os_json), []).
Proof.
  split; [repeat split; vm_compute; reflexivity|].
  exact (analyze_notebook_imports_names env_nb "proj/n.ipynb" "nb" nb_json src_import_os_json
           tree_import_os_json [] ltac:(vm_compute; reflexivity) ltac:(vm_compute; reflexivity)
           ltac:(vm_compute; reflexivity) ltac:(vm_compute; reflexivity)).
Defined.

Lemma analyze_python_version_features_witness :
  (utf8_valid src_fstring = true /\
   py_parse env_demo (translate_newlines src_fstring) = Ok tree_fstring) /\
  exists vs,
    analyze_python_version env_demo {| path := "proj/f.py"; kind := RegularFile src_fstring |} [] =
      (Ok vs, []) /\
    (forall v, In v vs <->
               exists n, In n (walk tree_fstring) /\ node_feature (has_match env_demo) n v).
Proof.
  split; [split; vm_compute; reflexivity|].
  exact (analyze_python_version_features env_demo "proj/f.py" src_fstring tree_fstring []
           ltac:(vm_compute; reflexivity) ltac:(vm_compute; reflexivity)).
Defined.

Lemma recommended_version_range_witness :
  get_python_version env_demo files_union_match [] = (Ok (float_lit 3 "9"), []) /\
  In (float_lit 3 "9") feature_versions.
Proof.
  match goal with |- ?A /\ _ => assert (H : A) by (vm_compute; reflexivity) end.
  split; [exact H|]. exact (recommended_version_range env_demo files_union_match [] _ _ H).
Defined.

Lemma reasoning_starts_with_match_line_witness :
  predict_python_environment env_demo "proj" files_fstring false [] =
    (Ok {| recommended_python_version := float_lit 3 "6";
           python_version_reasoning := [match_line; fstring_line; type_hint_line];
           dependencies := {| third_party := []; standard_lib := []; unknown := [] |};
           conda_environment_yaml :=
             {| y_name := "proj"; y_channels := ["defaults"; "conda-forge"];
                y_dependencies := [DepStr "python>=3.6"; DepStr "pip"; DepPip []] |};
           base_requirements := None |}, []) /\
  hd_error [match_line; fstring_line; type_hint_line] = Some match_line.
Proof.
  match goal with |- ?A /\ _ => assert (H : A) by (vm_compute; reflexivity) end.
  split; [exact H|].
  exact (reasoning_starts_with_match_line env_demo "proj" files_fstring false [] _ _ H).
Defined.

Lemma syntax_error_script_witness :
  (utf8_valid "((" = true /\ py_parse env_demo (translate_newlines "((") = Raise SyntaxError) /\
  analyze_imports env_demo {| path := "proj/bad.py"; kind := RegularFile "((" |} [] =
    (Ok [], [] ++ ["Warning: Syntax error in proj/bad.py"]) /\
  analyze_python_version env_demo {| path := "proj/bad.py"; kind := RegularFile "((" |} [] =
    (Ok [], []).
Proof.
  split; [split; vm_compute; reflexivity|].
  exact (syntax_error_script env_demo "proj/bad.py" "((" []
           ltac:(vm_compute; reflexivity) ltac:(vm_compute; reflexivity)).
Defined.

Lemma unparsable_notebook_skipped_witness :
  (utf8_valid "{}" = true /\
   exists nb, json_loads env_demo (translate_newlines "{}") = Ok nb /\
              notebook_code nb = Raise KeyError) /\
  analyze_notebook_imports env_demo {| path := "proj/e.ipynb"; kind := RegularFile "{}" |} [] =
    (Ok [], [] ++ ["Warning: Could not parse notebook proj/e.ipynb"]) /\
  analyze_python_version_notebook env_demo
    {| path := "proj/e.ipynb"; kind := RegularFile "{}" |} [] =
    (Ok [], [] ++ ["Warning: Could not analyze Python version in notebook proj/e.ipynb"]).
Proof.
  assert (Hj : exists nb, json_loads env_demo (translate_newlines "{}") = Ok nb /\
                          notebook_code nb = Raise KeyError)
    by (exists (JObj []); split; vm_compute; reflexivity).
  split; [split; [vm_compute; reflexivity|exact Hj]|].
  exact (unparsable_notebook_skipped env_demo "proj/e.ipynb" "{}" []
           ltac:(vm_compute; reflexivity) (or_intror Hj)).
Defined.

Lemma unreadable_source_aborts_witness :
  (path_suffix "proj/pkg.py" = ".py" /\ Directory = Directory /\ OSError = OSError) /\
  detect_project_dependencies env_demo files_fstring [] =
    (Ok {| third_party := []; standard_lib := []; unknown := [] |}, []) /\
  detect_project_dependencies env_demo
    (files_fstring ++ {| path := "proj/pkg.py"; kind := Directory |} :: files_match) [] =
    (Raise OSError, []) /\
  get_python_version env_demo files_fstring [] = (Ok (float_lit 3 "6"), []) /\
  get_python_version env_demo
    (files_fstring ++ {| path := "proj/pkg.py"; kind := Directory |} :: files_match) [] =
    (Raise OSError, []).
Proof.
  destruct (unreadable_source_aborts env_demo files_fstring
              {| path := "proj/pkg.py"; kind := Directory |} files_match [] OSError
              ltac:(left; vm_compute; reflexivity) ltac:(left; split; reflexivity)) as [Hd Hg].
  assert (H1 : detect_project_dependencies env_demo files_fstring [] =
                 (Ok {| third_party := []; standard_lib := []; unknown := [] |}, []))
    by (vm_compute; reflexivity).
  assert (H2 : get_python_version env_demo files_fstring [] = (Ok (float_lit 3 "6"), []))
    by (vm_compute; reflexivity).
  split; [split; [vm_compute; reflexivity|split; reflexivity]|].
  split; [exact H1|]. split; [exact (Hd _ _ H1)|].
  split; [exact H2|exact (Hg _ _ H2)].
Defined.

Lemma non_source_entries_ignored_witness :
  (String.eqb (path_suffix "proj/README.md") ".py" = false /\
   String.eqb (path_suffix "proj/README.md") ".ipynb" = false) /\
  detect_project_dependencies env_demo (files_fstring ++ script "proj/README.md" "x" :: files_match) [] =
    detect_project_dependencies env_demo (files_fstring ++ files_match) [] /\
  get_python_version env_demo (files_fstring ++ script "proj/README.md" "x" :: files_match) [] =
    get_python_version env_demo (files_fstring ++ files_match) [].
Proof.
  split; [split; vm_compute; reflexivity|].
  exact (non_source_entries_ignored env_demo files_fstring (script "proj/README.md" "x")
           files_match [] ltac:(vm_compute; reflexivity) ltac:(vm_compute; reflexivity)).
Defined.

Lemma dependency_lists_sorted_unique_witness :
  detect_project_dependencies env_demo files_mixed [] =
    (Ok {| third_party := ["foo==1.0"]; standard_lib := ["json"; "os"]; unknown := ["bar"] |}, []) /\
  (forall l, In l [["foo==1.0"]; ["json"; "os"]; ["bar"]] ->
             Sorted (fun a b => String.leb a b = true) l /\ NoDup l).
Proof.
  match goal with |- ?A /\ _ => assert (H : A) by (vm_compute; reflexivity) end.
  split; [exact H|]. exact (dependency_lists_sorted_unique env_demo files_mixed [] _ _ H).
Defined.

Lemma notebook_code_of_cells_witness :
  (dict_get "cells" [("cells", JArr nb_cells); ("nbformat", JNum 4)] = Some (JArr nb_cells) /\
   Forall2 cell_contrib nb_cells [None; Some (String.concat "" [("import os" ++ nl)%string; ("import json" ++ nl)%string])]) /\
  notebook_code (JObj [("cells", JArr nb_cells); ("nbformat", JNum 4)]) =
    Ok (String.concat nl (cell_texts [None; Some (String.concat "" [("import os" ++ nl)%string; ("import json" ++ nl)%string])])).
Proof.
  assert (Hc : Forall2 cell_contrib nb_cells
                 [None; Some (String.concat "" [("import os" ++ nl)%string; ("import json" ++ nl)%string])]).
  { constructor; [apply (cc_other _ (JStr "markdown")); vm_compute; reflexivity|].
    constructor; [|constructor].
    apply (cc_code_lines _ (JStr "code")); vm_compute; reflexivity. }
  split; [split; [vm_compute; reflexivity|exact Hc]|].
  exact (notebook_code_of_cells [("cells", JArr nb_cells); ("nbformat", JNum 4)] nb_cells _
           ltac:(vm_compute; reflexivity) Hc).
Defined.

Lemma no_sources_defaults_witness :
  (forall nv, In nv (distributions env_demo) -> fst nv <> None) /\
  Forall (fun e => String.eqb (path_suffix (path e)) ".py" = false /\
                   String.eqb (path_suffix (path e)) ".ipynb" = false)
         [script "proj/README.md" "x"; {| path := "proj/sub"; kind := Directory |}] /\
  exists env,
    predict_python_environment env_demo "proj"
      [script "proj/README.md" "x"; {| path := "proj/sub"; kind := Directory |}] true [] =
      (Ok env, []) /\
    recommended_python_version env = float_lit 3 "5" /\
    python_version_reasoning env = [match_line; type_hint_line] /\
    dependencies env = {| third_party := []; standard_lib := []; unknown := [] |}.
Proof.
  assert (Hn : forall nv, In nv (distributions env_demo) -> fst nv <> None)
    by (intros nv [<-|[]]; discriminate).
  assert (Hf : Forall (fun e => String.eqb (path_suffix (path e)) ".py" = false /\
                                String.eqb (path_suffix (path e)) ".ipynb" = false)
                      [script "proj/README.md" "x"; {| path := "proj/sub"; kind := Directory |}])
    by (repeat constructor; vm_compute; reflexivity).
  split; [exact Hn|]. split; [exact Hf|].
  exact (no_sources_defaults env_demo "proj" _ true [] Hn Hf).
Defined.

Lemma min_version_non_200_witness :
  (pypi_get ("https://pypi.org/pypi/" ++ "nosuch" ++ "/json")%string =
     Ok {| status_code := 404; response_json := Raise JSONDecodeError |} /\
   status_code {| status_code := 404; response_json := Raise JSONDecodeError |} <> 200) /\
  get_minimum_compatible_version pypi_get Z pypi_parse Z.ltb pypi_exc_str "nosuch" [] = (Ok None, []).
Proof.
  split; [split; [vm_compute; reflexivity|cbn; lia]|].
  exact (min_version_non_200 pypi_get Z pypi_parse Z.ltb pypi_exc_str "nosuch"
           {| status_code := 404; response_json := Raise JSONDecodeError |} []
           ltac:(vm_compute; reflexivity) ltac:(cbn; lia)).
Defined.

Lemma min_version_is_least_stable_release_witness :
  get_minimum_compatible_version pypi_get Z pypi_parse Z.ltb pypi_exc_str "foo" [] =
    (Ok (Some "0.9"), []) /\
  (@nil string = [] /\
   exists resp body kvs kv,
     pypi_get ("https://pypi.org/pypi/" ++ "foo" ++ "/json")%string = Ok resp /\
     status_code resp = 200 /\ response_json resp = Ok body /\
     getitem body "releases" = Ok (JObj kvs) /\
     In "0.9" (dict_keys kvs) /\ is_stable "0.9" = true /\ pypi_parse "0.9" = Ok kv /\
     forall w kw, In w (dict_keys kvs) -> is_stable w = true -> pypi_parse w = Ok kw ->
                  Z.ltb kw kv = false).
Proof.
  match goal with |- ?A /\ _ => assert (H : A) by (vm_compute; reflexivity) end.
  split; [exact H|].
  refine (min_version_is_least_stable_release pypi_get Z pypi_parse Z.ltb pypi_exc_str "foo"
            [] "0.9" [] _ _ H).
  - intros a b Hab. apply Z.ltb_lt in Hab. apply Z.ltb_ge. lia.
  - intros a b c Hab Hbc. apply Z.ltb_lt in Hab, Hbc. apply Z.ltb_lt. lia.
Defined.

